(** * podcast-json-converter: the converter of [mod.ts], embedded and verified

    [mod.ts] holds two functions.  [convertToRSS] maps a parsed podcast
    document (and an optional map of "latest episodes") to the configuration
    of an RSS feed and hands it to the [rss] package; [handler] is the HTTP
    request handler around it.  Both are embedded here over the values the
    JavaScript engine really passes around: documents are whatever
    [response.json()] returned, so they are modelled as untyped JSON values
    and the declared interfaces ([Root], [Podcast], [Episode],
    [LatestEpisode]) are records with an encoding into such values. *)

From Stdlib Require Import List String Ascii Bool ZArith QArith Qround Lia.
From Stdlib Require Import DecimalString.
Import ListNotations.

Set Warnings "-register-all".

Local Open Scope string_scope.
Local Open Scope list_scope.
Local Open Scope Z_scope.

(* ================================================================= *)
(** ** Values of the engine *)

(** A JavaScript number that a JSON text can denote or [Math.floor] can
    return.  Every finite double is a rational, so [Finite] covers them. *)
Inductive number : Type :=
| Finite (q : Q)
| NaN
| Infinity (negative : bool).

(** What [JSON.parse] builds, plus [undefined], which property reads
    produce.  An object is its list of members, one entry per key. *)
Inductive value : Type :=
| VUndefined
| VNull
| VBool (b : bool)
| VNum (n : number)
| VStr (s : string)
| VArr (elements : list value)
| VObj (members : list (string * value)).

(** Objects the program itself builds with literals: they hold parsed values,
    [Date] objects made by [new Date(arg)], and nested literals. *)
Inductive cfg : Type :=
| CVal (v : value)
| CDate (arg : value)
| CArr (elements : list cfg)
| CObj (members : list (string * cfg)).

(** The reason of an engine-raised [TypeError]. *)
Inductive type_error : Type :=
| CannotReadProperty (base : value) (name : string)
| NotAFunction (callee : string).

(** Thrown values.  All of them are [Error] instances. *)
Inductive thrown : Type :=
| NewError (message : string)        (* throw new Error(message) *)
| EngineTypeError (why : type_error)
| HostError (message : string).      (* raised inside a host capability *)

Inductive result (A : Type) : Type :=
| Ok (a : A)
| Throw (e : thrown).
Arguments Ok {A} a.
Arguments Throw {A} e.

Definition bind {A B : Type} (r : result A) (k : A -> result B) : result B :=
  match r with
  | Ok a => k a
  | Throw e => Throw e
  end.

Declare Scope js_scope.
Delimit Scope js_scope with js.
Notation "x <- e ;; k" := (bind e (fun x => k))
  (at level 100, e at next level, right associativity) : js_scope.
Local Open Scope js_scope.

Fixpoint mapM {A B : Type} (f : A -> result B) (l : list A) : result (list B) :=
  match l with
  | [] => Ok []
  | a :: rest => b <- f a ;; bs <- mapM f rest ;; Ok (b :: bs)
  end.

(* ----------------------------------------------------------------- *)
(** *** Truthiness and [||] *)

Definition number_truthy (n : number) : bool :=
  match n with
  | Finite q => negb (Qeq_bool q 0)
  | NaN => false
  | Infinity _ => true
  end.

Definition truthy (v : value) : bool :=
  match v with
  | VUndefined | VNull => false
  | VBool b => b
  | VNum n => number_truthy n
  | VStr s => negb (String.eqb s "")
  | VArr _ | VObj _ => true
  end.

(** [a || b] *)
Definition or_else (a b : value) : value := if truthy a then a else b.

(* ----------------------------------------------------------------- *)
(** *** Property reads *)

Fixpoint lookup {A : Type} (name : string) (members : list (string * A)) : option A :=
  match members with
  | [] => None
  | (k, v) :: rest => if String.eqb name k then Some v else lookup name rest
  end.

(** [v.name] on a value that is neither [undefined] nor [null], for the data
    member names of this program ([podcast], [title], [episodes], [uuid],
    [image], ...): none of them is inherited from a prototype, so only an
    object's own member answers. *)
Definition member (v : value) (name : string) : value :=
  match v with
  | VObj ms => match lookup name ms with Some x => x | None => VUndefined end
  | _ => VUndefined
  end.

(** [v.name] *)
Definition get (v : value) (name : string) : result value :=
  match v with
  | VUndefined | VNull => Throw (EngineTypeError (CannotReadProperty v name))
  | _ => Ok (member v name)
  end.

(** [v?.name] *)
Definition opt_get (v : value) (name : string) : value :=
  match v with
  | VUndefined | VNull => VUndefined
  | _ => member v name
  end.

(** A member of a literal the program built; [CVal VUndefined] when absent. *)
Definition field (c : cfg) (name : string) : cfg :=
  match c with
  | CObj ms => match lookup name ms with Some x => x | None => CVal VUndefined end
  | _ => CVal VUndefined
  end.

(* ----------------------------------------------------------------- *)
(** *** [Array.prototype.slice] *)

(** A relative index of [slice]: negative counts from the end, and the result
    is clamped to [0 .. len]. *)
Definition relative_index (len i : Z) : Z :=
  if i <? 0 then Z.max (len + i) 0 else Z.min i len.

Definition slice {A : Type} (l : list A) (start end_ : Z) : list A :=
  let len := Z.of_nat (List.length l) in
  let k := relative_index len start in
  let final := relative_index len end_ in
  firstn (Z.to_nat (final - k)) (skipn (Z.to_nat k) l).

(* ----------------------------------------------------------------- *)
(** *** [Map] *)

Definition number_same (a b : number) : bool :=
  match a, b with
  | Finite x, Finite y => Qeq_bool x y
  | NaN, NaN => true
  | Infinity s, Infinity t => Bool.eqb s t
  | _, _ => false
  end.

(** SameValueZero, the key equality of [Map].  Objects and arrays are equal
    only to themselves, and the keys of this program are members of objects
    that [JSON.parse] created one by one, so two such keys are never the same
    object. *)
Definition same_value_zero (a b : value) : bool :=
  match a, b with
  | VUndefined, VUndefined => true
  | VNull, VNull => true
  | VBool x, VBool y => Bool.eqb x y
  | VNum x, VNum y => number_same x y
  | VStr x, VStr y => String.eqb x y
  | _, _ => false
  end.

(** A [Map]: its entries in insertion order, keys pairwise different. *)
Definition jsmap : Type := list (value * value).

Fixpoint Map_set (k v : value) (m : jsmap) : jsmap :=
  match m with
  | [] => [(k, v)]
  | (k', v') :: rest =>
      if same_value_zero k' k then (k', v) :: rest else (k', v') :: Map_set k v rest
  end.

(** [m.get(k)] *)
Fixpoint Map_get (m : jsmap) (k : value) : value :=
  match m with
  | [] => VUndefined
  | (k', v') :: rest => if same_value_zero k' k then v' else Map_get rest k
  end.

(** [m.has(k)] *)
Fixpoint Map_has (m : jsmap) (k : value) : bool :=
  match m with
  | [] => false
  | (k', _) :: rest => same_value_zero k' k || Map_has rest k
  end.

(** [new Map(entries)] *)
Definition new_Map (entries : list (value * value)) : jsmap :=
  fold_left (fun m kv => Map_set (fst kv) (snd kv) m) entries [].

(** [m.size] *)
Definition Map_size (m : jsmap) : nat := List.length m.

(* ----------------------------------------------------------------- *)
(** *** Host capabilities

    What the program calls and does not define: the engine's coercions and
    error wording, the clock, the network, and the [rss] package. *)

Record FetchResponse : Type := {
  ok : bool;
  statusText : string;
  json : result value            (* the outcome of [await response.json()] *)
}.

Record Host : Type := {
  (* ToPrimitive of an array or object, which yields a string or throws *)
  ToPrimitive : value -> result string;
  (* StringToNumber *)
  StringToNumber : string -> number;
  (* the message of an engine-raised TypeError *)
  type_error_message : type_error -> string;
  (* new Date().toUTCString() *)
  now : string;
  (* decodeURIComponent *)
  decodeURIComponent : string -> result string;
  (* fetch(url); the first argument counts the fetches made before it while
     serving the request *)
  fetch : nat -> string -> result FetchResponse;
  (* feed.xml({ indent: true }) of the rss package, from the options given
     to [new RSS] and the options of each [feed.item] call, in order *)
  rss_xml : cfg -> list cfg -> string
}.

(** [e.message] *)
Definition message (h : Host) (e : thrown) : string :=
  match e with
  | NewError m => m
  | EngineTypeError why => type_error_message h why
  | HostError m => m
  end.

(** ToNumber *)
Definition ToNumber (h : Host) (v : value) : result number :=
  match v with
  | VUndefined => Ok NaN
  | VNull => Ok (Finite 0)
  | VBool b => Ok (Finite (if b then 1 else 0))
  | VNum n => Ok n
  | VStr s => Ok (StringToNumber h s)
  | VArr _ | VObj _ => s <- ToPrimitive h v ;; Ok (StringToNumber h s)
  end.

Definition floor_number (n : number) : number :=
  match n with
  | Finite q => Finite (inject_Z (Qfloor q))
  | other => other
  end.

(** [Math.floor(v)] *)
Definition Math_floor (h : Host) (v : value) : result value :=
  n <- ToNumber h v ;; Ok (VNum (floor_number n)).

(** [new Date(v)]: an array or object argument is first made primitive. *)
Definition new_Date (h : Host) (v : value) : result cfg :=
  match v with
  | VArr _ | VObj _ => s <- ToPrimitive h v ;; Ok (CDate (VStr s))
  | _ => Ok (CDate v)
  end.

(* ================================================================= *)
(** ** [convertToRSS] *)

(** A feed object of the rss package: the options [new RSS] received and the
    options of the [feed.item] calls made so far. *)
Record Feed : Type := {
  options : cfg;
  items : list cfg
}.

Definition new_RSS (opts : cfg) : Feed := {| options := opts; items := [] |}.

(** [feed.item(itemOptions)] *)
Definition feed_item (feed : Feed) (itemOptions : cfg) : Feed :=
  {| options := options feed; items := items feed ++ [itemOptions] |}.

(** [feed.xml({ indent: true })] *)
Definition feed_xml (h : Host) (feed : Feed) : string :=
  rss_xml h (options feed) (items feed).

(** [a || b], where reading [b] may throw and is skipped when [a] is truthy *)
Definition or_elseM (a : value) (b : result value) : result value :=
  if truthy a then Ok a else b.

(** The object literal given to [new RSS] (lines 80-111). *)
Definition feed_options (h : Host) (podcast : value) : result cfg :=
  title <- get podcast "title" ;;
  description <- get podcast "description" ;;
  feed_url <- get podcast "url" ;;
  site_url <- get podcast "url" ;;
  image_url <- get podcast "image_url" ;;
  author <- get podcast "author" ;;
  itunes_author <- get podcast "author" ;;
  itunes_summary <- get podcast "description" ;;
  show_type <- get podcast "show_type" ;;
  description_html <- get podcast "description_html" ;;
  category <- get podcast "category" ;;
  itunes_image <- get podcast "image_url" ;;
  image_image <- get podcast "image_url" ;;
  image_title <- get podcast "title" ;;
  image_link <- get podcast "url" ;;
  Ok (CObj
    [ ("title", CVal title);
      ("description", CVal description);
      ("feed_url", CVal feed_url);
      ("site_url", CVal site_url);
      ("image_url", CVal (or_else image_url (VStr "")));
      ("author", CVal author);
      ("language", CVal (VStr "en-us"));
      ("pubDate", CVal (VStr (now h)));
      ("ttl", CVal (VNum (Finite 60)));
      ("generator", CVal (VStr "Deno Podcast Converter (via npm:rss)"));
      ("custom_namespaces", CObj
        [ ("itunes", CVal (VStr "http://www.itunes.com/dtds/podcast-1.0.dtd"));
          ("content", CVal (VStr "http://purl.org/rss/1.0/modules/content/"));
          ("media", CVal (VStr "http://search.yahoo.com/mrss/")) ]);
      ("custom_elements", CArr
        [ CObj [("itunes:author", CVal itunes_author)];
          CObj [("itunes:summary", CVal itunes_summary)];
          CObj [("itunes:type", CVal show_type)];
          CObj [("itunes:explicit", CVal (VStr "false"))];
          CObj [("content:encoded", CVal description_html)];
          CObj [("itunes:category", CObj [("_attr", CObj [("text", CVal category)])])];
          CObj [("itunes:image", CObj [("_attr", CObj
                  [("href", CVal (or_else itunes_image (VStr "")))])])];
          CObj [("image", CArr
                  [ CObj [("url", CVal (or_else image_image (VStr "")))];
                    CObj [("title", CVal image_title)];
                    CObj [("link", CVal image_link)] ])] ]) ]).

(** [latestEpisodesMap?.get(uuid)] *)
Definition latest_entry (latestEpisodesMap : option jsmap) (uuid : value) : value :=
  match latestEpisodesMap with
  | None => VUndefined
  | Some m => Map_get m uuid
  end.

(** [latestEpisodesMap?.get(episode.uuid)?.image || podcast.image_url || ''] *)
Definition episode_image (podcast : value) (latestEpisodesMap : option jsmap)
    (episode : value) : result value :=
  uuid <- get episode "uuid" ;;
  first <- or_elseM (opt_get (latest_entry latestEpisodesMap uuid) "image")
                    (get podcast "image_url") ;;
  Ok (or_else first (VStr "")).

(** The body of the [forEach] callback up to the [feed.item] call: the
    object literal of lines 115-144, members evaluated in source order. *)
Definition episode_item (h : Host) (podcast : value)
    (latestEpisodesMap : option jsmap) (episode : value) : result cfg :=
  published <- get episode "published" ;;
  pubDate <- new_Date h published ;;
  title <- get episode "title" ;;
  url <- get episode "url" ;;
  guid <- get episode "uuid" ;;
  enclosure_url <- get episode "url" ;;
  size <- get episode "file_size" ;;
  type <- get episode "file_type" ;;
  author <- get podcast "author" ;;
  duration <- get episode "duration" ;;
  itunes_duration <- Math_floor h duration ;;
  episodeType <- get episode "type" ;;
  href <- episode_image podcast latestEpisodesMap episode ;;
  media_url <- episode_image podcast latestEpisodesMap episode ;;
  Ok (CObj
    [ ("title", CVal title);
      ("description", CVal (VStr ""));
      ("url", CVal url);
      ("guid", CVal guid);
      ("date", pubDate);
      ("enclosure", CObj
        [ ("url", CVal enclosure_url);
          ("size", CVal size);
          ("type", CVal type) ]);
      ("author", CVal author);
      ("custom_elements", CArr
        [ CObj [("itunes:duration", CVal itunes_duration)];
          CObj [("itunes:episodeType", CVal episodeType)];
          CObj [("itunes:image", CObj [("_attr", CObj [("href", CVal href)])])];
          CObj [("media:content", CArr
                  [ CObj [("_attr", CObj
                      [ ("url", CVal media_url);
                        ("medium", CVal (VStr "image"));
                        ("type", CVal (VStr "image/jpeg")) ])] ])] ]) ]).

(** [podcast.episodes.slice(podcast.episodes.length - 10,
    podcast.episodes.length - 8)], up to the lookup of [forEach] on it. *)
Definition selected_episodes (podcast : value) : result (list value) :=
  episodes <- get podcast "episodes" ;;
  match episodes with
  | VUndefined | VNull =>
      Throw (EngineTypeError (CannotReadProperty episodes "slice"))
  | VArr l =>
      Ok (slice l (Z.of_nat (List.length l) - 10) (Z.of_nat (List.length l) - 8))
  | VStr _ =>
      (* String.prototype.slice answers with a string, which has no forEach *)
      Throw (EngineTypeError (NotAFunction "podcast.episodes.slice(...).forEach"))
  | VBool _ | VNum _ | VObj _ =>
      Throw (EngineTypeError (NotAFunction "podcast.episodes.slice"))
  end.

(** [selected.forEach(episode => { ...; feed.item({...}) })] *)
Fixpoint forEach_episode (h : Host) (podcast : value)
    (latestEpisodesMap : option jsmap) (feed : Feed) (selected : list value)
    : result Feed :=
  match selected with
  | [] => Ok feed
  | episode :: rest =>
      item <- episode_item h podcast latestEpisodesMap episode ;;
      forEach_episode h podcast latestEpisodesMap (feed_item feed item) rest
  end.

(** [convertToRSS] up to its last line: the feed object before [feed.xml]. *)
Definition convertToRSS_feed (h : Host) (podcastData : value)
    (latestEpisodesMap : option jsmap) : result Feed :=
  if negb (truthy podcastData) then
    Throw (NewError "Invalid podcast JSON structure")
  else
    podcast <- get podcastData "podcast" ;;
    if negb (truthy podcast) then
      Throw (NewError "Invalid podcast JSON structure")
    else
      opts <- feed_options h podcast ;;
      selected <- selected_episodes podcast ;;
      forEach_episode h podcast latestEpisodesMap (new_RSS opts) selected.

Definition convertToRSS (h : Host) (podcastData : value)
    (latestEpisodesMap : option jsmap) : result string :=
  feed <- convertToRSS_feed h podcastData latestEpisodesMap ;;
  Ok (feed_xml h feed).

(* ================================================================= *)
(** ** [handler] *)

(** What the handler reads of [new URL(req.url)]: the path and the query
    parameters in order. *)
Record URL : Type := {
  pathname : string;
  searchParams : list (string * string)
}.

Record Request : Type := {
  method : string;
  url : URL
}.

(** [url.searchParams.get(name)]: the first value of that name, or [null]. *)
Definition searchParams_get (u : URL) (name : string) : option string :=
  lookup name (searchParams u).

Record Response : Type := {
  status : nat;
  headers : list (string * string);
  body : string
}.

(** [new Response(body, { status, headers })]; the status defaults to 200. *)
Definition new_Response (body_ : string) (status_ : option nat)
    (headers_ : list (string * string)) : Response :=
  {| status := match status_ with Some s => s | None => 200%nat end;
     headers := headers_;
     body := body_ |}.

(** [response.headers.get(name)] over the headers the program set. *)
Definition header (r : Response) (name : string) : option string :=
  lookup name (headers r).

Inductive console_call : Type :=
| console_log (text : string)
| console_warn (text : string)
| console_error (text : string) (error : thrown).

(** A number inside a template string. *)
Definition decimal (n : nat) : string := NilEmpty.string_of_uint (Nat.to_uint n).

(** [latestData.podcast.episodes.map(ep => [ep.uuid, ep])] *)
Definition latest_entries (episodes : value) : result (list (value * value)) :=
  match episodes with
  | VUndefined | VNull =>
      Throw (EngineTypeError (CannotReadProperty episodes "map"))
  | VArr l => mapM (fun ep => uuid <- get ep "uuid" ;; Ok (uuid, ep)) l
  | VBool _ | VNum _ | VStr _ | VObj _ =>
      Throw (EngineTypeError (NotAFunction "latestData.podcast.episodes.map"))
  end.

(** The inner [try] of lines 183-200: the console calls it makes and the
    value [latestEpisodesMap] has after it. *)
Definition fetch_latest (h : Host) (latestPodcastJsonUrl : string)
    : list console_call * option jsmap :=
  let attempt : result (list console_call * option jsmap) :=
    latestResponse <- fetch h 1%nat latestPodcastJsonUrl ;;
    if negb (ok latestResponse) then
      Ok ([console_warn ("Failed to fetch latest podcasts JSON: "
                         ++ statusText latestResponse ++ " from "
                         ++ latestPodcastJsonUrl ++ ". Proceeding without it.")],
          None)
    else
      latestData <- json latestResponse ;;
      if truthy (opt_get (opt_get latestData "podcast") "episodes") then
        entries <- latest_entries (opt_get (opt_get latestData "podcast") "episodes") ;;
        let latestEpisodesMap := new_Map entries in
        Ok ([console_log ("Successfully fetched and mapped "
                          ++ decimal (Map_size latestEpisodesMap)
                          ++ " episodes from latest podcasts URL.")],
            Some latestEpisodesMap)
      else
        Ok ([console_warn ("Latest podcasts JSON from " ++ latestPodcastJsonUrl
                           ++ " did not contain expected 'podcast.episodes' structure. Proceeding without it.")],
            None)
  in
  match attempt with
  | Ok outcome => outcome
  | Throw latestError =>
      ([console_warn ("Error processing latest podcasts JSON from "
                      ++ latestPodcastJsonUrl ++ ": " ++ message h latestError
                      ++ ". Proceeding without it.")],
       None)
  end.

(** A string used as a condition. *)
Definition nonempty (s : string) : bool := negb (String.eqb s "").

(** Lines 168-171: the value of [latestPodcastJsonUrl], [null] as [None]. *)
Definition decode_latest (h : Host) (latestPodcastsUrlParam : option string)
    : result (option string) :=
  match latestPodcastsUrlParam with
  | Some p =>
      if nonempty p then u <- decodeURIComponent h p ;; Ok (Some u)
      else Ok None
  | None => Ok None
  end.

(** Lines 181-201: the console calls of the optional fetch and the value of
    [latestEpisodesMap] after it. *)
Definition latest_episodes_map (h : Host) (latestPodcastJsonUrl : option string)
    : list console_call * option jsmap :=
  match latestPodcastJsonUrl with
  | Some u => if nonempty u then fetch_latest h u else ([], None)
  | None => ([], None)
  end.

(** The outer [try] block of lines 165-209, up to the value [rssFeed]. *)
Definition convert_request (h : Host) (urlParam : string)
    (latestPodcastsUrlParam : option string)
    : list console_call * result string :=
  match decodeURIComponent h urlParam with
  | Throw e => ([], Throw e)
  | Ok podcastJsonUrl =>
    match decode_latest h latestPodcastsUrlParam with
    | Throw e => ([], Throw e)
    | Ok latestPodcastJsonUrl =>
      let primary : result value :=
        response <- fetch h 0%nat podcastJsonUrl ;;
        if negb (ok response) then
          Throw (NewError ("Failed to fetch podcast JSON: " ++ statusText response
                           ++ " from " ++ podcastJsonUrl))
        else json response in
      match primary with
      | Throw e => ([], Throw e)
      | Ok podcastData =>
        let '(console, latestEpisodesMap) :=
          latest_episodes_map h latestPodcastJsonUrl in
        (console, convertToRSS h podcastData latestEpisodesMap)
      end
    end
  end.

(** How the outer [try] ends: the [return] of lines 207-209 when [rssFeed]
    was computed, the [catch] block of lines 210-216 when something threw. *)
Definition respond (outcome : list console_call * result string) (h : Host)
    : list console_call * Response :=
  match outcome with
  | (console, Ok rssFeed) =>
      (console,
       new_Response rssFeed None
         [("Content-Type", "application/rss+xml; charset=utf-8")])
  | (console, Throw error) =>
      (console ++ [console_error "Conversion error:" error],
       new_Response ("Failed to convert podcast JSON: " ++ message h error)
         (Some 500%nat) [])
  end.

(** The handler: the console calls made while serving and the response. *)
Definition handler (h : Host) (req : Request) : list console_call * Response :=
  if negb (String.eqb (pathname (url req)) "/convert") then
    ([], new_Response "Not Found" (Some 404%nat) [])
  else
    let urlParam := searchParams_get (url req) "url" in
    let latestPodcastsUrlParam := searchParams_get (url req) "latestPodcastsUrl" in
    match urlParam with
    | None =>
        ([], new_Response "Missing required `url` query parameter" (Some 400%nat) [])
    | Some u =>
      if negb (nonempty u) then
        ([], new_Response "Missing required `url` query parameter" (Some 400%nat) [])
      else
        respond (convert_request h u latestPodcastsUrlParam) h
    end.

(* ================================================================= *)
(** ** The declared interfaces and the documents that conform to them *)

Definition optional (name : string) (v : option string) : list (string * value) :=
  match v with
  | Some s => [(name, VStr s)]
  | None => []
  end.

Module Episode.
Record t : Type := {
    uuid : string;
    title : string;
    url : string;
    file_type : string;
    file_size : Q;
    duration : Q;
    published : string;
    type : string;
    image_url : option string
  }.

Definition to_json (e : t) : value :=
    VObj ([ ("uuid", VStr (uuid e));
            ("title", VStr (title e));
            ("url", VStr (url e));
            ("file_type", VStr (file_type e));
            ("file_size", VNum (Finite (file_size e)));
            ("duration", VNum (Finite (duration e)));
            ("published", VStr (published e));
            ("type", VStr (type e)) ]
          ++ optional "image_url" (image_url e)).
End Episode.

Module Podcast.
Record t : Type := {
    url : string;
    title : string;
    author : string;
    description : string;
    description_html : string;
    category : string;
    audio : bool;
    show_type : string;
    uuid : string;
    fundings : list value;
    guid : string;
    is_private : bool;
    transcript_eligible : bool;
    episodes : list Episode.t;
    image_url : option string
  }.

Definition to_json (p : t) : value :=
    VObj ([ ("url", VStr (url p));
            ("title", VStr (title p));
            ("author", VStr (author p));
            ("description", VStr (description p));
            ("description_html", VStr (description_html p));
            ("category", VStr (category p));
            ("audio", VBool (audio p));
            ("show_type", VStr (show_type p));
            ("uuid", VStr (uuid p));
            ("fundings", VArr (fundings p));
            ("guid", VStr (guid p));
            ("is_private", VBool (is_private p));
            ("transcript_eligible", VBool (transcript_eligible p));
            ("episodes", VArr (map Episode.to_json (episodes p))) ]
          ++ optional "image_url" (image_url p)).
End Podcast.

Module Root.
Record t : Type := {
    episode_frequency : string;
    estimated_next_episode_at : string;
    has_seasons : bool;
    season_count : Q;
    episode_count : Q;
    has_more_episodes : bool;
    podcast : Podcast.t
  }.

Definition to_json (r : t) : value :=
    VObj [ ("episode_frequency", VStr (episode_frequency r));
           ("estimated_next_episode_at", VStr (estimated_next_episode_at r));
           ("has_seasons", VBool (has_seasons r));
           ("season_count", VNum (Finite (season_count r)));
           ("episode_count", VNum (Finite (episode_count r)));
           ("has_more_episodes", VBool (has_more_episodes r));
           ("podcast", Podcast.to_json (podcast r)) ].
End Root.

Module LatestEpisode.
Record t : Type := {
    uuid : string;
    title : string;
    url : string;
    published : string;
    show_notes : string;
    hash : string;
    modified : Q;
    image : string;
    transcripts : list value
  }.

Definition to_json (e : t) : value :=
    VObj [ ("uuid", VStr (uuid e));
           ("title", VStr (title e));
           ("url", VStr (url e));
           ("published", VStr (published e));
           ("show_notes", VStr (show_notes e));
           ("hash", VStr (hash e));
           ("modified", VNum (Finite (modified e)));
           ("image", VStr (image e));
           ("transcripts", VArr (transcripts e)) ].
End LatestEpisode.

Module LatestPodcastData.
Record t : Type := { episodes : list LatestEpisode.t }.

Definition to_json (d : t) : value :=
    VObj [ ("episodes", VArr (map LatestEpisode.to_json (episodes d))) ].
End LatestPodcastData.

Module LatestPodcastsRoot.
Record t : Type := { podcast : LatestPodcastData.t }.

Definition to_json (r : t) : value :=
    VObj [ ("podcast", LatestPodcastData.to_json (podcast r)) ].
End LatestPodcastsRoot.

(* ================================================================= *)
(** ** Observing a configuration *)

(** The element of [custom_elements] that carries the given tag. *)
Fixpoint find_element (name : string) (elements : list cfg) : cfg :=
  match elements with
  | [] => CVal VUndefined
  | CObj ms :: rest =>
      match lookup name ms with
      | Some x => x
      | None => find_element name rest
      end
  | _ :: rest => find_element name rest
  end.

Definition custom_element (c : cfg) (name : string) : cfg :=
  match field c "custom_elements" with
  | CArr elements => find_element name elements
  | _ => CVal VUndefined
  end.

(** An attribute of an attribute-only element [{ _attr: {...} }]. *)
Definition attr (element : cfg) (name : string) : cfg :=
  field (field element "_attr") name.

(** An attribute of the single child of [media:content]. *)
Definition media_attr (item : cfg) (name : string) : cfg :=
  match custom_element item "media:content" with
  | CArr [child] => attr child name
  | _ => CVal VUndefined
  end.

(* ================================================================= *)
(** ** The conversion on conforming documents *)

Definition text_or_empty (s : option string) : string :=
  match s with
  | Some x => x
  | None => ""
  end.

(** The value both image attributes of an episode receive. *)
Definition resolved_image (p : Podcast.t) (latestEpisodesMap : option jsmap)
    (uuid : string) : value :=
  let entry_image := opt_get (latest_entry latestEpisodesMap (VStr uuid)) "image" in
  if truthy entry_image then entry_image
  else VStr (text_or_empty (Podcast.image_url p)).

(** What [feed_options] evaluates to on a conforming podcast. *)
Definition conforming_options (h : Host) (p : Podcast.t) : cfg :=
  let image := VStr (text_or_empty (Podcast.image_url p)) in
  CObj
    [ ("title", CVal (VStr (Podcast.title p)));
      ("description", CVal (VStr (Podcast.description p)));
      ("feed_url", CVal (VStr (Podcast.url p)));
      ("site_url", CVal (VStr (Podcast.url p)));
      ("image_url", CVal image);
      ("author", CVal (VStr (Podcast.author p)));
      ("language", CVal (VStr "en-us"));
      ("pubDate", CVal (VStr (now h)));
      ("ttl", CVal (VNum (Finite 60)));
      ("generator", CVal (VStr "Deno Podcast Converter (via npm:rss)"));
      ("custom_namespaces", CObj
        [ ("itunes", CVal (VStr "http://www.itunes.com/dtds/podcast-1.0.dtd"));
          ("content", CVal (VStr "http://purl.org/rss/1.0/modules/content/"));
          ("media", CVal (VStr "http://search.yahoo.com/mrss/")) ]);
      ("custom_elements", CArr
        [ CObj [("itunes:author", CVal (VStr (Podcast.author p)))];
          CObj [("itunes:summary", CVal (VStr (Podcast.description p)))];
          CObj [("itunes:type", CVal (VStr (Podcast.show_type p)))];
          CObj [("itunes:explicit", CVal (VStr "false"))];
          CObj [("content:encoded", CVal (VStr (Podcast.description_html p)))];
          CObj [("itunes:category", CObj [("_attr", CObj
                  [("text", CVal (VStr (Podcast.category p)))])])];
          CObj [("itunes:image", CObj [("_attr", CObj [("href", CVal image)])])];
          CObj [("image", CArr
                  [ CObj [("url", CVal image)];
                    CObj [("title", CVal (VStr (Podcast.title p)))];
                    CObj [("link", CVal (VStr (Podcast.url p)))] ])] ]) ].

(** What [episode_item] evaluates to on a conforming episode. *)
Definition conforming_item (p : Podcast.t) (latestEpisodesMap : option jsmap)
    (e : Episode.t) : cfg :=
  let image := resolved_image p latestEpisodesMap (Episode.uuid e) in
  CObj
    [ ("title", CVal (VStr (Episode.title e)));
      ("description", CVal (VStr ""));
      ("url", CVal (VStr (Episode.url e)));
      ("guid", CVal (VStr (Episode.uuid e)));
      ("date", CDate (VStr (Episode.published e)));
      ("enclosure", CObj
        [ ("url", CVal (VStr (Episode.url e)));
          ("size", CVal (VNum (Finite (Episode.file_size e))));
          ("type", CVal (VStr (Episode.file_type e))) ]);
      ("author", CVal (VStr (Podcast.author p)));
      ("custom_elements", CArr
        [ CObj [("itunes:duration",
                 CVal (VNum (Finite (inject_Z (Qfloor (Episode.duration e))))))];
          CObj [("itunes:episodeType", CVal (VStr (Episode.type e)))];
          CObj [("itunes:image", CObj [("_attr", CObj [("href", CVal image)])])];
          CObj [("media:content", CArr
                  [ CObj [("_attr", CObj
                      [ ("url", CVal image);
                        ("medium", CVal (VStr "image"));
                        ("type", CVal (VStr "image/jpeg")) ])] ])] ]) ].

(** The episodes [convertToRSS] hands to [feed.item]. *)
Definition selection {A : Type} (episodes : list A) : list A :=
  slice episodes (Z.of_nat (List.length episodes) - 10)
                 (Z.of_nat (List.length episodes) - 8).

(* ================================================================= *)
(** ** Sample data *)

Module Sample.
Definition episode (i : nat) : Episode.t :=
    {| Episode.uuid := "e" ++ decimal i;
       Episode.title := "Episode " ++ decimal i;
       Episode.url := "https://example.com/episodes/" ++ decimal i;
       Episode.file_type := "audio/mpeg";
       Episode.file_size := inject_Z (Z.of_nat (1000 + i));
       Episode.duration :=
         match i with
         | 2%nat => (1259 # 10)%Q
         | 3%nat => (-3 # 2)%Q
         | _ => inject_Z 60
         end;
       Episode.published := "2024-01-01T00:00:00Z";
       Episode.type := "full";
       Episode.image_url := None |}.

Definition podcast (count : nat) : Podcast.t :=
    {| Podcast.url := "https://example.com/show";
       Podcast.title := "A <Show> & more";
       Podcast.author := "An Author";
       Podcast.description := "About the show";
       Podcast.description_html := "<p>About the show</p>";
       Podcast.category := "Technology";
       Podcast.audio := true;
       Podcast.show_type := "episodic";
       Podcast.uuid := "p1";
       Podcast.fundings := [];
       Podcast.guid := "g1";
       Podcast.is_private := false;
       Podcast.transcript_eligible := false;
       Podcast.episodes := map episode (seq 0 count);
       Podcast.image_url := Some "http://x/show.jpg" |}.

Definition root (count : nat) : Root.t :=
    {| Root.episode_frequency := "weekly";
       Root.estimated_next_episode_at := "2024-02-01T00:00:00Z";
       Root.has_seasons := false;
       Root.season_count := 0%Q;
       Root.episode_count := inject_Z (Z.of_nat count);
       Root.has_more_episodes := false;
       Root.podcast := podcast count |}.

Definition latest (uuid image : string) : LatestEpisode.t :=
    {| LatestEpisode.uuid := uuid;
       LatestEpisode.title := "Latest";
       LatestEpisode.url := "https://example.com/latest";
       LatestEpisode.published := "2024-01-01T00:00:00Z";
       LatestEpisode.show_notes := "";
       LatestEpisode.hash := "h";
       LatestEpisode.modified := 0%Q;
       LatestEpisode.image := image;
       LatestEpisode.transcripts := [] |}.

Definition responds (v : value) : result FetchResponse :=
    Ok {| ok := true; statusText := "OK"; json := Ok v |}.

  (** A host whose network answers the first fetch with [primary] and the
      second with [secondary]. *)
Definition host (primary secondary : result FetchResponse) : Host :=
    {| ToPrimitive := fun _ => Ok "[object Object]";
       StringToNumber := fun _ => NaN;
       type_error_message := fun why =>
         match why with
         | CannotReadProperty _ name =>
             ("Cannot read properties (reading '" ++ name ++ "')")%string
         | NotAFunction callee => (callee ++ " is not a function")%string
         end;
       now := "Mon, 01 Jan 2024 00:00:00 GMT";
       decodeURIComponent := fun s => Ok s;
       fetch := fun n _ => match n with O => primary | _ => secondary end;
       rss_xml := fun _ items =>
         ("<rss items=" ++ decimal (List.length items) ++ "/>")%string |}.

Definition request (method_ : string) (path : string)
      (params : list (string * string)) : Request :=
    {| method := method_;
       url := {| pathname := path; searchParams := params |} |}.
End Sample.

(* ================================================================= *)
(** ** Predicates on requests and documents *)

(** The request is for [/convert], names a primary URL, and the primary
    fetch succeeds with the parsed document [doc]. *)
Definition primary_document (h : Host) (req : Request) (doc : value) : Prop :=
  pathname (url req) = "/convert"
  /\ exists u fetched response,
       searchParams_get (url req) "url" = Some u
       /\ nonempty u = true
       /\ decodeURIComponent h u = Ok fetched
       /\ fetch h 0%nat fetched = Ok response
       /\ ok response = true
       /\ json response = Ok doc.

(** The request names a secondary URL, which decodes to [latest]. *)
Definition secondary_url (h : Host) (req : Request) (latest : string) : Prop :=
  decode_latest h (searchParams_get (url req) "latestPodcastsUrl") = Ok (Some latest)
  /\ nonempty latest = true.

(** The document is absent. *)
Definition absent (doc : value) : Prop := doc = VUndefined \/ doc = VNull.

(** The document has no [podcast] member, or a [null] one. *)
Definition lacks_podcast (doc : value) : Prop :=
  member doc "podcast" = VUndefined \/ member doc "podcast" = VNull.

(** The ways the secondary fetch at [latest] fails. *)
Inductive secondary_failure (h : Host) (latest : string) : Prop :=
| network_error (e : thrown) :
    fetch h 1%nat latest = Throw e ->
    secondary_failure h latest
| non_success_status (response : FetchResponse) :
    fetch h 1%nat latest = Ok response ->
    ok response = false ->
    secondary_failure h latest
| malformed_json (response : FetchResponse) (e : thrown) :
    fetch h 1%nat latest = Ok response ->
    ok response = true ->
    json response = Throw e ->
    secondary_failure h latest
| missing_episodes (response : FetchResponse) (latestData : value) :
    fetch h 1%nat latest = Ok response ->
    ok response = true ->
    json response = Ok latestData ->
    truthy (opt_get (opt_get latestData "podcast") "episodes") = false ->
    secondary_failure h latest
| unusable_episodes (response : FetchResponse) (latestData : value) (e : thrown) :
    fetch h 1%nat latest = Ok response ->
    ok response = true ->
    json response = Ok latestData ->
    latest_entries (opt_get (opt_get latestData "podcast") "episodes") = Throw e ->
    secondary_failure h latest.

(** The [[ep.uuid, ep]] pair of a conforming secondary episode. *)
Definition latest_entry_of (e : LatestEpisode.t) : value * value :=
  (VStr (LatestEpisode.uuid e), LatestEpisode.to_json e).

(** The request with its [latestPodcastsUrl] parameters removed. *)
Definition without_latest (req : Request) : Request :=
  {| method := method req;
     url := {| pathname := pathname (url req);
               searchParams :=
                 filter (fun kv => negb (String.eqb "latestPodcastsUrl" (fst kv)))
                        (searchParams (url req)) |} |}.

(* ================================================================= *)
(** ** The wording of the specification, for comparison *)

(** The resolution as the specification words it: the enrichment entry of
    the episode's uuid if the map has one, else the podcast-level image URL,
    else the empty string. *)
Definition spec_image_by_presence (p : Podcast.t) (latestEpisodesMap : option jsmap)
    (uuid : string) : value :=
  let present :=
    match latestEpisodesMap with
    | Some entries => Map_has entries (VStr uuid)
    | None => false
    end in
  if present then opt_get (latest_entry latestEpisodesMap (VStr uuid)) "image"
  else match Podcast.image_url p with
       | Some image => VStr image
       | None => VStr ""
       end.

(** Truncation toward zero, as the specification words it. *)
Definition truncate (q : Q) : Z := Z.quot (Qnum q) (Zpos (Qden q)).

(* ================================================================= *)
(** ** Further predicates and data *)

(** The ways the primary fetch at [fetched] fails, with the value the outer
    [try] block throws in each. *)
Inductive primary_failure (h : Host) (fetched : string) : thrown -> Prop :=
| primary_network_error (e : thrown) :
    fetch h 0%nat fetched = Throw e ->
    primary_failure h fetched e
| primary_non_success_status (response : FetchResponse) :
    fetch h 0%nat fetched = Ok response ->
    ok response = false ->
    primary_failure h fetched
      (NewError ("Failed to fetch podcast JSON: " ++ statusText response
                 ++ " from " ++ fetched))
| primary_malformed_json (response : FetchResponse) (e : thrown) :
    fetch h 0%nat fetched = Ok response ->
    ok response = true ->
    json response = Throw e ->
    primary_failure h fetched e.

(** A console call other than [console.error]. *)
Definition not_console_error (c : console_call) : Prop :=
  match c with
  | console_error _ _ => False
  | _ => True
  end.

(** The lengths of an episodes list from which two episodes are selected. *)
Definition two_selected (n : nat) : bool :=
  ((5 <=? n)%nat && (n <=? 7)%nat) || (10 <=? n)%nat.

(** The document [r] with the optional [image_url] of every episode replaced. *)
Definition with_episode_images (image : Episode.t -> option string) (r : Root.t)
    : Root.t :=
  let p := Root.podcast r in
  {| Root.episode_frequency := Root.episode_frequency r;
     Root.estimated_next_episode_at := Root.estimated_next_episode_at r;
     Root.has_seasons := Root.has_seasons r;
     Root.season_count := Root.season_count r;
     Root.episode_count := Root.episode_count r;
     Root.has_more_episodes := Root.has_more_episodes r;
     Root.podcast :=
       {| Podcast.url := Podcast.url p;
          Podcast.title := Podcast.title p;
          Podcast.author := Podcast.author p;
          Podcast.description := Podcast.description p;
          Podcast.description_html := Podcast.description_html p;
          Podcast.category := Podcast.category p;
          Podcast.audio := Podcast.audio p;
          Podcast.show_type := Podcast.show_type p;
          Podcast.uuid := Podcast.uuid p;
          Podcast.fundings := Podcast.fundings p;
          Podcast.guid := Podcast.guid p;
          Podcast.is_private := Podcast.is_private p;
          Podcast.transcript_eligible := Podcast.transcript_eligible p;
          Podcast.episodes :=
            map (fun e =>
                   {| Episode.uuid := Episode.uuid e;
                      Episode.title := Episode.title e;
                      Episode.url := Episode.url e;
                      Episode.file_type := Episode.file_type e;
                      Episode.file_size := Episode.file_size e;
                      Episode.duration := Episode.duration e;
                      Episode.published := Episode.published e;
                      Episode.type := Episode.type e;
                      Episode.image_url := image e |})
                (Podcast.episodes p);
          Podcast.image_url := Podcast.image_url p |} |}.



(** The host [h] with another [decodeURIComponent]. *)
Definition with_decodeURIComponent (h : Host) (decode : string -> result string)
    : Host :=
  {| ToPrimitive := ToPrimitive h;
     StringToNumber := StringToNumber h;
     type_error_message := type_error_message h;
     now := now h;
     decodeURIComponent := decode;
     fetch := fetch h;
     rss_xml := rss_xml h |}.

(* ================================================================= *)
(** * Properties *)

Lemma or_else_text (s : option string) :
  or_else (match s with Some x => VStr x | None => VUndefined end) (VStr "")
  = VStr (text_or_empty s).
Proof.
  destruct s as [x|]; [|reflexivity].
  unfold or_else; simpl.
  destruct (String.eqb x "") eqn:E; simpl; [|reflexivity].
  apply String.eqb_eq in E. now subst.
Qed.

Lemma lookup_app_fresh {A : Type} (name : string) (front back : list (string * A)) :
  lookup name front = None -> lookup name (front ++ back) = lookup name back.
Proof.
  induction front as [|[k v] front IH]; simpl; [reflexivity|].
  destruct (String.eqb name k); [discriminate|exact IH].
Qed.

Lemma lookup_optional (name : string) (s : option string) :
  match lookup name (optional name s) with Some x => x | None => VUndefined end
  = match s with Some x => VStr x | None => VUndefined end.
Proof.
  destruct s; simpl; [|reflexivity]. now rewrite String.eqb_refl.
Qed.

Lemma podcast_image_url (p : Podcast.t) :
  get (Podcast.to_json p) "image_url"
  = Ok (match Podcast.image_url p with Some x => VStr x | None => VUndefined end).
Proof.
  unfold Podcast.to_json, get, member.
  rewrite lookup_app_fresh by reflexivity.
  now rewrite lookup_optional.
Qed.

Lemma podcast_member (p : Podcast.t) (name : string) (v : value) :
  lookup name
    [ ("url", VStr (Podcast.url p));
      ("title", VStr (Podcast.title p));
      ("author", VStr (Podcast.author p));
      ("description", VStr (Podcast.description p));
      ("description_html", VStr (Podcast.description_html p));
      ("category", VStr (Podcast.category p));
      ("audio", VBool (Podcast.audio p));
      ("show_type", VStr (Podcast.show_type p));
      ("uuid", VStr (Podcast.uuid p));
      ("fundings", VArr (Podcast.fundings p));
      ("guid", VStr (Podcast.guid p));
      ("is_private", VBool (Podcast.is_private p));
      ("transcript_eligible", VBool (Podcast.transcript_eligible p));
      ("episodes", VArr (map Episode.to_json (Podcast.episodes p))) ] = Some v ->
  get (Podcast.to_json p) name = Ok v.
Proof.
  intros H. unfold Podcast.to_json, get, member.
  assert (L : forall (front back : list (string * value)),
             lookup name front = Some v -> lookup name (front ++ back) = Some v).
  { induction front as [|[k x] front IH]; simpl; [discriminate|].
    intros back. destruct (String.eqb name k); [trivial|apply IH]. }
  now rewrite (L _ _ H).
Qed.

Lemma episode_member (e : Episode.t) (name : string) (v : value) :
  lookup name
    [ ("uuid", VStr (Episode.uuid e));
      ("title", VStr (Episode.title e));
      ("url", VStr (Episode.url e));
      ("file_type", VStr (Episode.file_type e));
      ("file_size", VNum (Finite (Episode.file_size e)));
      ("duration", VNum (Finite (Episode.duration e)));
      ("published", VStr (Episode.published e));
      ("type", VStr (Episode.type e)) ] = Some v ->
  get (Episode.to_json e) name = Ok v.
Proof.
  intros H. unfold Episode.to_json, get, member.
  assert (L : forall (front back : list (string * value)),
             lookup name front = Some v -> lookup name (front ++ back) = Some v).
  { induction front as [|[k x] front IH]; simpl; [discriminate|].
    intros back. destruct (String.eqb name k); [trivial|apply IH]. }
  now rewrite (L _ _ H).
Qed.

Lemma episode_image_conforming (p : Podcast.t) (m : option jsmap) (e : Episode.t) :
  episode_image (Podcast.to_json p) m (Episode.to_json e)
  = Ok (resolved_image p m (Episode.uuid e)).
Proof.
  unfold episode_image, resolved_image.
  rewrite (episode_member e "uuid" (VStr (Episode.uuid e))) by reflexivity.
  cbn [bind]. unfold or_elseM.
  destruct (truthy (opt_get (latest_entry m (VStr (Episode.uuid e))) "image")) eqn:T.
  - cbn [bind]. unfold or_else. now rewrite T.
  - rewrite podcast_image_url. cbn [bind]. now rewrite or_else_text.
Qed.

Ltac read_members :=
  repeat first
    [ rewrite podcast_image_url
    | erewrite podcast_member by reflexivity
    | erewrite episode_member by reflexivity
    | rewrite episode_image_conforming
    | progress cbn [bind] ].

Lemma feed_options_conforming (h : Host) (p : Podcast.t) :
  feed_options h (Podcast.to_json p) = Ok (conforming_options h p).
Proof.
  unfold feed_options. read_members.
  rewrite or_else_text. reflexivity.
Qed.

Lemma episode_item_conforming (h : Host) (p : Podcast.t) (m : option jsmap)
    (e : Episode.t) :
  episode_item h (Podcast.to_json p) m (Episode.to_json e)
  = Ok (conforming_item p m e).
Proof.
  unfold episode_item. read_members. reflexivity.
Qed.

Lemma forEach_episode_conforming (h : Host) (p : Podcast.t) (m : option jsmap)
    (selected : list Episode.t) :
  forall feed,
    forEach_episode h (Podcast.to_json p) m feed (map Episode.to_json selected)
    = Ok {| options := options feed;
            items := items feed ++ map (conforming_item p m) selected |}.
Proof.
  induction selected as [|e rest IH]; intros feed; simpl.
  - rewrite app_nil_r. now destruct feed.
  - rewrite episode_item_conforming. cbn [bind].
    rewrite IH. simpl. now rewrite <- app_assoc.
Qed.

Lemma slice_map {A B : Type} (f : A -> B) (l : list A) (start end_ : Z) :
  slice (map f l) start end_ = map f (slice l start end_).
Proof.
  unfold slice. rewrite length_map.
  now rewrite skipn_map, firstn_map.
Qed.

Lemma selected_episodes_conforming (p : Podcast.t) :
  selected_episodes (Podcast.to_json p)
  = Ok (map Episode.to_json (selection (Podcast.episodes p))).
Proof.
  unfold selected_episodes, selection. read_members.
  now rewrite slice_map, length_map.
Qed.

(** The feed object [convertToRSS] builds from a conforming document. *)
Lemma convertToRSS_feed_conforming (h : Host) (r : Root.t) (m : option jsmap) :
  convertToRSS_feed h (Root.to_json r) m
  = Ok {| options := conforming_options h (Root.podcast r);
          items := map (conforming_item (Root.podcast r) m)
                       (selection (Podcast.episodes (Root.podcast r))) |}.
Proof.
  unfold convertToRSS_feed. cbn [Root.to_json truthy negb].
  change (get (Root.to_json r) "podcast") with (Ok (Podcast.to_json (Root.podcast r))).
  cbn [bind].
  change (truthy (Podcast.to_json (Root.podcast r))) with true. cbn [negb].
  rewrite feed_options_conforming, selected_episodes_conforming. cbn [bind].
  now rewrite forEach_episode_conforming.
Qed.

(* ----------------------------------------------------------------- *)
(** *** The selected range *)

Lemma two_from {A : Type} (l : list A) :
  forall k, (k + 2 <= List.length l)%nat ->
  exists a b, nth_error l k = Some a /\ nth_error l (S k) = Some b
              /\ firstn 2 (skipn k l) = [a; b].
Proof.
  induction l as [|x l IH]; intros k Hk; simpl in Hk; [lia|].
  destruct k as [|k].
  - destruct l as [|y l]; simpl in Hk; [lia|].
    exists x, y. repeat split.
  - destruct (IH k) as (a & b & Ha & Hb & Hf); [lia|].
    exists a, b. repeat split; assumption.
Qed.

Lemma selection_of_ten_or_more {A : Type} (l : list A) :
  (10 <= List.length l)%nat ->
  exists a b,
    nth_error l (List.length l - 10) = Some a
    /\ nth_error l (List.length l - 9) = Some b
    /\ selection l = [a; b].
Proof.
  intros Hn. unfold selection, slice, relative_index.
  replace (Z.of_nat (List.length l) - 10 <? 0) with false
    by (symmetry; apply Z.ltb_ge; lia).
  replace (Z.of_nat (List.length l) - 8 <? 0) with false
    by (symmetry; apply Z.ltb_ge; lia).
  rewrite !Z.min_l by lia.
  replace (Z.to_nat (Z.of_nat (List.length l) - 8 - (Z.of_nat (List.length l) - 10)))
    with 2%nat by lia.
  replace (Z.to_nat (Z.of_nat (List.length l) - 10))
    with (List.length l - 10)%nat by lia.
  destruct (two_from l (List.length l - 10)) as (a & b & Ha & Hb & Hf); [lia|].
  exists a, b. repeat split; try assumption.
  replace (List.length l - 9)%nat with (S (List.length l - 10)) by lia.
  exact Hb.
Qed.

(** The item built for the [i]-th selected episode of a conforming document. *)
Lemma selected_item (h : Host) (r : Root.t) (m : option jsmap) (i : nat)
    (e : Episode.t) :
  nth_error (selection (Podcast.episodes (Root.podcast r))) i = Some e ->
  exists feed,
    convertToRSS_feed h (Root.to_json r) m = Ok feed
    /\ nth_error (items feed) i = Some (conforming_item (Root.podcast r) m e)
    /\ episode_item h (Podcast.to_json (Root.podcast r)) m (Episode.to_json e)
       = Ok (conforming_item (Root.podcast r) m e).
Proof.
  intros Hi. eexists. split; [apply convertToRSS_feed_conforming|].
  split; [|apply episode_item_conforming].
  simpl. now apply map_nth_error.
Qed.

(* ================================================================= *)
(** ** Episode selection *)

(** The selected range on short and long lists, by evaluation. *)
Example selection_of_12 :
  selection (seq 0 12) = [2%nat; 3%nat].
Proof. reflexivity. Qed.

Example selection_of_10 :
  selection (seq 0 10) = [0%nat; 1%nat].
Proof. reflexivity. Qed.

Example selection_of_9 :
  selection (seq 0 9) = [].
Proof. reflexivity. Qed.

Example selection_of_5 :
  selection (seq 0 5) = [0%nat; 1%nat].
Proof. reflexivity. Qed.

(** C1: for every conforming primary document with at least 10 episodes,
    [convertToRSS] returns, and the feed it serialises holds exactly two
    items: the one built from the episode at index [length - 10] followed by
    the one built from the episode at index [length - 9]. *)
Theorem convertToRSS_emits_two_items (h : Host) (r : Root.t) (m : option jsmap) :
  (10 <= List.length (Podcast.episodes (Root.podcast r)))%nat ->
  exists e1 e2 item1 item2 feed,
    nth_error (Podcast.episodes (Root.podcast r))
              (List.length (Podcast.episodes (Root.podcast r)) - 10) = Some e1
    /\ nth_error (Podcast.episodes (Root.podcast r))
                 (List.length (Podcast.episodes (Root.podcast r)) - 9) = Some e2
    /\ convertToRSS_feed h (Root.to_json r) m = Ok feed
    /\ convertToRSS h (Root.to_json r) m = Ok (rss_xml h (options feed) [item1; item2])
    /\ items feed = [item1; item2]
    /\ episode_item h (Podcast.to_json (Root.podcast r)) m (Episode.to_json e1) = Ok item1
    /\ episode_item h (Podcast.to_json (Root.podcast r)) m (Episode.to_json e2) = Ok item2
    /\ field item1 "guid" = CVal (VStr (Episode.uuid e1))
    /\ field item2 "guid" = CVal (VStr (Episode.uuid e2)).
Proof.
  intros Hn.
  destruct (selection_of_ten_or_more _ Hn) as (e1 & e2 & H1 & H2 & Hsel).
  exists e1, e2, (conforming_item (Root.podcast r) m e1),
    (conforming_item (Root.podcast r) m e2).
  eexists. split; [exact H1|]. split; [exact H2|].
  split; [apply convertToRSS_feed_conforming|].
  unfold convertToRSS. rewrite convertToRSS_feed_conforming. cbn [bind].
  unfold feed_xml. cbn [options items]. rewrite Hsel. cbn [map].
  repeat split; apply episode_item_conforming.
Qed.

Lemma convertToRSS_emits_two_items_witness :
  exists e1 e2 item1 item2 feed,
    nth_error (Podcast.episodes (Sample.podcast 12)) 2 = Some e1
    /\ nth_error (Podcast.episodes (Sample.podcast 12)) 3 = Some e2
    /\ convertToRSS_feed (Sample.host (Throw (HostError "")) (Throw (HostError "")))
         (Root.to_json (Sample.root 12)) None = Ok feed
    /\ convertToRSS (Sample.host (Throw (HostError "")) (Throw (HostError "")))
         (Root.to_json (Sample.root 12)) None
       = Ok (rss_xml (Sample.host (Throw (HostError "")) (Throw (HostError "")))
               (options feed) [item1; item2])
    /\ items feed = [item1; item2]
    /\ episode_item (Sample.host (Throw (HostError "")) (Throw (HostError "")))
         (Podcast.to_json (Sample.podcast 12)) None (Episode.to_json e1) = Ok item1
    /\ episode_item (Sample.host (Throw (HostError "")) (Throw (HostError "")))
         (Podcast.to_json (Sample.podcast 12)) None (Episode.to_json e2) = Ok item2
    /\ field item1 "guid" = CVal (VStr (Episode.uuid e1))
    /\ field item2 "guid" = CVal (VStr (Episode.uuid e2)).
Proof.
  apply (convertToRSS_emits_two_items
           (Sample.host (Throw (HostError "")) (Throw (HostError "")))
           (Sample.root 12) None).
  vm_compute. lia.
Defined.

(* ================================================================= *)
(** ** Requests that reach the conversion *)

Lemma handler_primary_document (h : Host) (req : Request) (doc : value) :
  primary_document h req doc ->
  handler h req
  = match decode_latest h (searchParams_get (url req) "latestPodcastsUrl") with
    | Throw e => respond ([], Throw e) h
    | Ok latest =>
        respond (fst (latest_episodes_map h latest),
                 convertToRSS h doc (snd (latest_episodes_map h latest))) h
    end.
Proof.
  intros (Hpath & u & fetched & response & Hu & Hne & Hdec & Hfetch & Hok & Hjson).
  unfold handler. rewrite Hpath, Hu, Hne. cbn [String.eqb negb].
  change (String.eqb "/convert" "/convert") with true. cbn [negb].
  unfold convert_request. rewrite Hdec.
  destruct (decode_latest h _) as [latest|e]; [|reflexivity].
  rewrite Hfetch. cbn [bind]. rewrite Hok. cbn [negb]. rewrite Hjson.
  destruct (latest_episodes_map h latest) as [console m]. reflexivity.
Qed.

(** A response with status 200 carries the [Content-Type] header and no
    other. *)
Lemma handler_ok_headers (h : Host) (req : Request) :
  status (snd (handler h req)) = 200%nat ->
  headers (snd (handler h req))
  = [("Content-Type", "application/rss+xml; charset=utf-8")].
Proof.
  unfold handler.
  destruct (negb (String.eqb (pathname (url req)) "/convert")); [discriminate|].
  destruct (searchParams_get (url req) "url") as [u|]; [|discriminate].
  destruct (negb (nonempty u)); [discriminate|].
  destruct (convert_request h u _) as [console [rssFeed|e]]; [reflexivity|discriminate].
Qed.

(* ================================================================= *)
(** ** The response to a successful conversion *)

(** C2 (the code at a successful request): the handler answers a valid
    request with status 200 and the [Content-Type] header
    [application/rss+xml; charset=utf-8], and sets no other header: there is
    no [X-Podcast-Metadata] header on the response. *)
Theorem handler_success_has_no_metadata_header :
  let response :=
    snd (handler (Sample.host (Sample.responds (Root.to_json (Sample.root 12)))
                              (Throw (HostError "unused")))
                 (Sample.request "GET" "/convert"
                    [("url", "https://example.com/podcast.json")])) in
  status response = 200%nat
  /\ header response "Content-Type" = Some "application/rss+xml; charset=utf-8"
  /\ header response "X-Podcast-Metadata" = None
  /\ headers response = [("Content-Type", "application/rss+xml; charset=utf-8")]
  /\ body response = "<rss items=2/>".
Proof.
  vm_compute. repeat split.
Qed.

(* ================================================================= *)
(** ** Documents without a podcast *)

Lemma convertToRSS_feed_without_podcast (h : Host) (doc : value) (m : option jsmap) :
  absent doc \/ lacks_podcast doc ->
  convertToRSS_feed h doc m = Throw (NewError "Invalid podcast JSON structure").
Proof.
  intros H. unfold convertToRSS_feed.
  destruct (truthy doc) eqn:T; cbn [negb]; [|reflexivity].
  assert (Hget : get doc "podcast" = Ok (member doc "podcast"))
    by (destruct doc; try reflexivity; discriminate T).
  rewrite Hget. cbn [bind].
  destruct H as [[-> | ->] | [-> | ->]]; try discriminate T; reflexivity.
Qed.

(** A [podcast] member that is truthy but no object passes the guard; the
    conversion then fails on [podcast.episodes.slice] instead. *)
Remark convertToRSS_feed_podcast_not_an_object (h : Host) (m : option jsmap) :
  convertToRSS_feed h (VObj [("podcast", VStr "hello")]) m
  = Throw (EngineTypeError (CannotReadProperty VUndefined "slice")).
Proof. reflexivity. Qed.

(** C3: when the document is absent or lacks the nested podcast object,
    [convertToRSS] throws an error with the message "Invalid podcast JSON
    structure" whatever else the document holds and whatever map it is
    given, and a request whose primary fetch delivered such a document is
    answered with status 500; the body carries that message whenever the
    request got as far as the conversion. *)
Theorem convertToRSS_rejects_missing_podcast (h : Host) (doc : value)
    (m : option jsmap) :
  absent doc \/ lacks_podcast doc ->
  convertToRSS h doc m = Throw (NewError "Invalid podcast JSON structure")
  /\ forall req,
       primary_document h req doc ->
       status (snd (handler h req)) = 500%nat
       /\ forall latest,
            decode_latest h (searchParams_get (url req) "latestPodcastsUrl") = Ok latest ->
            body (snd (handler h req))
            = "Failed to convert podcast JSON: Invalid podcast JSON structure".
Proof.
  intros H.
  assert (C : forall m', convertToRSS h doc m'
                         = Throw (NewError "Invalid podcast JSON structure")).
  { intros m'. unfold convertToRSS.
    now rewrite convertToRSS_feed_without_podcast. }
  split; [apply C|].
  intros req Hreq. rewrite (handler_primary_document h req doc Hreq).
  destruct (decode_latest h _) as [latest|e].
  - rewrite C. split; [reflexivity|]. intros _ _. reflexivity.
  - split; [reflexivity|]. intros latest Hl. discriminate Hl.
Qed.

Lemma convertToRSS_rejects_missing_podcast_witness :
  convertToRSS
    (Sample.host (Sample.responds (VObj [("episode_count", VNum (Finite 3))]))
                 (Throw (HostError "unused")))
    (VObj [("episode_count", VNum (Finite 3))]) None
  = Throw (NewError "Invalid podcast JSON structure")
  /\ status (snd (handler
        (Sample.host (Sample.responds (VObj [("episode_count", VNum (Finite 3))]))
                     (Throw (HostError "unused")))
        (Sample.request "GET" "/convert"
           [("url", "https://example.com/podcast.json")]))) = 500%nat
  /\ body (snd (handler
        (Sample.host (Sample.responds (VObj [("episode_count", VNum (Finite 3))]))
                     (Throw (HostError "unused")))
        (Sample.request "GET" "/convert"
           [("url", "https://example.com/podcast.json")])))
     = "Failed to convert podcast JSON: Invalid podcast JSON structure".
Proof.
  destruct (convertToRSS_rejects_missing_podcast
              (Sample.host (Sample.responds (VObj [("episode_count", VNum (Finite 3))]))
                           (Throw (HostError "unused")))
              (VObj [("episode_count", VNum (Finite 3))]) None
              (or_intror (or_introl eq_refl))) as [Hthrow Hhandler].
  split; [exact Hthrow|].
  destruct (Hhandler (Sample.request "GET" "/convert"
                        [("url", "https://example.com/podcast.json")]))
    as [Hstatus Hbody].
  - split; [reflexivity|].
    exists "https://example.com/podcast.json", "https://example.com/podcast.json",
      {| ok := true; statusText := "OK";
         json := Ok (VObj [("episode_count", VNum (Finite 3))]) |}.
    repeat split.
  - split; [exact Hstatus|]. apply (Hbody None). reflexivity.
Defined.

(* ================================================================= *)
(** ** Routing *)

(** C4 (as stated, refuted): a POST to [/convert] without a [url] parameter
    is not answered with 404; the handler treats it like any request to
    [/convert] and answers 400. *)
Lemma post_to_convert_is_not_404 :
  method (Sample.request "POST" "/convert" []) <> "GET"
  /\ pathname (url (Sample.request "POST" "/convert" [])) = "/convert"
  /\ status (snd (handler (Sample.host (Throw (HostError "")) (Throw (HostError "")))
                          (Sample.request "POST" "/convert" []))) = 400%nat
  /\ status (snd (handler (Sample.host (Throw (HostError "")) (Throw (HostError "")))
                          (Sample.request "POST" "/convert" []))) <> 404%nat.
Proof.
  repeat split; vm_compute; discriminate.
Qed.

(** C4 (amended): every request whose path is not [/convert] is answered
    with 404 "Not Found", whatever its method, and the handler never looks at
    the method: a request gets the response the same request would get as a
    GET. *)
Theorem handler_routes_by_path_only (h : Host) (req : Request) :
  (pathname (url req) <> "/convert" ->
   handler h req = ([], new_Response "Not Found" (Some 404%nat) [])
   /\ status (snd (handler h req)) = 404%nat)
  /\ handler h req = handler h {| method := "GET"; url := url req |}.
Proof.
  split; [|reflexivity].
  intros Hpath. unfold handler.
  apply String.eqb_neq in Hpath. rewrite Hpath. split; reflexivity.
Qed.

Lemma handler_routes_by_path_only_witness :
  handler (Sample.host (Throw (HostError "")) (Throw (HostError "")))
          (Sample.request "GET" "/other" [("url", "https://example.com/podcast.json")])
  = ([], new_Response "Not Found" (Some 404%nat) [])
  /\ status (snd (handler (Sample.host (Throw (HostError "")) (Throw (HostError "")))
                          (Sample.request "GET" "/other"
                             [("url", "https://example.com/podcast.json")]))) = 404%nat.
Proof.
  apply (handler_routes_by_path_only
           (Sample.host (Throw (HostError "")) (Throw (HostError "")))
           (Sample.request "GET" "/other" [("url", "https://example.com/podcast.json")])).
  vm_compute. discriminate.
Defined.

(* ================================================================= *)
(** ** The secondary fetch *)

Lemma fetch_latest_failure (h : Host) (latest : string) :
  secondary_failure h latest ->
  exists text, fetch_latest h latest = ([console_warn text], None).
Proof.
  intros [e He | response Hf Hok | response e Hf Hok Hj
          | response latestData Hf Hok Hj Ht | response latestData e Hf Hok Hj Hl];
    unfold fetch_latest; rewrite ?He, ?Hf; cbn [bind]; rewrite ?Hok; cbn [negb];
    rewrite ?Hj; cbn [bind]; rewrite ?Ht; try (eexists; reflexivity).
  destruct (truthy _); rewrite ?Hl; cbn [bind]; eexists; reflexivity.
Qed.

Lemma lookup_filter_other {A : Type} (name removed : string) (l : list (string * A)) :
  name <> removed ->
  lookup name (filter (fun kv => negb (String.eqb removed (fst kv))) l) = lookup name l.
Proof.
  intros Hne. induction l as [|[k v] l IH]; simpl; [reflexivity|].
  destruct (String.eqb removed k) eqn:R; simpl.
  - apply String.eqb_eq in R. subst k.
    apply String.eqb_neq in Hne. now rewrite Hne.
  - now rewrite IH.
Qed.

Lemma lookup_filter_removed {A : Type} (removed : string) (l : list (string * A)) :
  lookup removed (filter (fun kv => negb (String.eqb removed (fst kv))) l) = None.
Proof.
  induction l as [|[k v] l IH]; simpl; [reflexivity|].
  destruct (String.eqb removed k) eqn:R; simpl; [exact IH|].
  now rewrite R.
Qed.

Lemma primary_document_without_latest (h : Host) (req : Request) (doc : value) :
  primary_document h req doc -> primary_document h (without_latest req) doc.
Proof.
  intros (Hpath & u & fetched & response & Hu & Hrest).
  split; [exact Hpath|]. exists u, fetched, response. split; [|exact Hrest].
  unfold searchParams_get, without_latest; cbn [url searchParams].
  rewrite lookup_filter_other by discriminate. exact Hu.
Qed.

Lemma handler_without_latest (h : Host) (req : Request) (doc : value) :
  primary_document h req doc ->
  handler h (without_latest req) = respond ([], convertToRSS h doc None) h.
Proof.
  intros Hreq.
  rewrite (handler_primary_document h _ doc (primary_document_without_latest _ _ _ Hreq)).
  unfold searchParams_get, without_latest; cbn [url searchParams].
  now rewrite lookup_filter_removed.
Qed.

Lemma conforming_item_fallback (p : Podcast.t) (e : Episode.t) :
  attr (custom_element (conforming_item p None e) "itunes:image") "href"
  = CVal (VStr (text_or_empty (Podcast.image_url p)))
  /\ media_attr (conforming_item p None e) "url"
     = CVal (VStr (text_or_empty (Podcast.image_url p))).
Proof.
  split; reflexivity.
Qed.

(** C5: when the secondary fetch fails (the network throws, the status is
    not a success, the body is not JSON, [podcast.episodes] is missing, or it
    cannot be mapped), the handler only calls [console.warn] for it and
    answers exactly as it answers the same request without the secondary URL;
    for a conforming primary document that answer is a 200 with the
    serialised feed, every item of which carries the podcast-level image (or
    the empty string) in both image attributes. *)
Theorem secondary_failure_is_swallowed (h : Host) (req : Request) (doc : value)
    (latest : string) :
  primary_document h req doc ->
  secondary_url h req latest ->
  secondary_failure h latest ->
  exists text,
    fst (handler h req) = console_warn text :: fst (handler h (without_latest req))
    /\ snd (handler h req) = snd (handler h (without_latest req))
    /\ forall r,
         doc = Root.to_json r ->
         exists feed,
           convertToRSS_feed h doc None = Ok feed
           /\ handler h req
              = ([console_warn text],
                 new_Response (feed_xml h feed) None
                   [("Content-Type", "application/rss+xml; charset=utf-8")])
           /\ status (snd (handler h req)) = 200%nat
           /\ Forall (fun item =>
                attr (custom_element item "itunes:image") "href"
                = CVal (VStr (text_or_empty (Podcast.image_url (Root.podcast r))))
                /\ media_attr item "url"
                   = CVal (VStr (text_or_empty (Podcast.image_url (Root.podcast r)))))
              (items feed).
Proof.
  intros Hreq [Hdec Hne] Hfail.
  destruct (fetch_latest_failure h latest Hfail) as [text Htext].
  exists text.
  rewrite (handler_without_latest h req doc Hreq).
  rewrite (handler_primary_document h req doc Hreq), Hdec.
  unfold latest_episodes_map. rewrite Hne, Htext. cbn [fst snd].
  split; [|split].
  - unfold respond. now destruct (convertToRSS h doc None).
  - unfold respond. now destruct (convertToRSS h doc None).
  - intros r ->. eexists. split; [apply convertToRSS_feed_conforming|].
    unfold convertToRSS. rewrite convertToRSS_feed_conforming. cbn [bind respond].
    split; [reflexivity|]. split; [reflexivity|].
    cbn [items]. apply Forall_forall. intros item Hin.
    apply in_map_iff in Hin. destruct Hin as (e & <- & _).
    apply conforming_item_fallback.
Qed.

Lemma secondary_failure_is_swallowed_witness :
  exists text,
    fst (handler
      (Sample.host (Sample.responds (Root.to_json (Sample.root 12)))
         (Ok {| ok := false; statusText := "Internal Server Error";
                json := Throw (HostError "Unexpected token") |}))
      (Sample.request "GET" "/convert"
         [("url", "https://example.com/podcast.json");
          ("latestPodcastsUrl", "https://example.com/latest.json")]))
    = [console_warn text]
    /\ status (snd (handler
      (Sample.host (Sample.responds (Root.to_json (Sample.root 12)))
         (Ok {| ok := false; statusText := "Internal Server Error";
                json := Throw (HostError "Unexpected token") |}))
      (Sample.request "GET" "/convert"
         [("url", "https://example.com/podcast.json");
          ("latestPodcastsUrl", "https://example.com/latest.json")]))) = 200%nat.
Proof.
  destruct (secondary_failure_is_swallowed
    (Sample.host (Sample.responds (Root.to_json (Sample.root 12)))
       (Ok {| ok := false; statusText := "Internal Server Error";
              json := Throw (HostError "Unexpected token") |}))
    (Sample.request "GET" "/convert"
       [("url", "https://example.com/podcast.json");
        ("latestPodcastsUrl", "https://example.com/latest.json")])
    (Root.to_json (Sample.root 12))
    "https://example.com/latest.json") as (text & _ & _ & Hconforming).
  - split; [reflexivity|].
    exists "https://example.com/podcast.json", "https://example.com/podcast.json",
      {| ok := true; statusText := "OK"; json := Ok (Root.to_json (Sample.root 12)) |}.
    repeat split.
  - split; reflexivity.
  - eapply non_success_status; reflexivity.
  - destruct (Hconforming (Sample.root 12) eq_refl) as (feed & _ & Hh & Hs & _).
    exists text. split; [now rewrite Hh|exact Hs].
Defined.

(* ================================================================= *)
(** ** Episode images *)

(** C6 (as stated, refuted): with an enrichment entry for "e2" whose image
    is the empty string, the item of episode "e2" does not carry the entry's
    image; it carries the podcast-level image. *)
Lemma image_by_presence_counterexample :
  exists feed item,
    convertToRSS_feed (Sample.host (Throw (HostError "")) (Throw (HostError "")))
      (Root.to_json (Sample.root 12))
      (Some (new_Map [(VStr "e2", LatestEpisode.to_json (Sample.latest "e2" ""))]))
    = Ok feed
    /\ nth_error (items feed) 0 = Some item
    /\ field item "guid" = CVal (VStr "e2")
    /\ attr (custom_element item "itunes:image") "href" = CVal (VStr "http://x/show.jpg")
    /\ spec_image_by_presence (Sample.podcast 12)
         (Some (new_Map [(VStr "e2", LatestEpisode.to_json (Sample.latest "e2" ""))]))
         "e2" = VStr ""
    /\ attr (custom_element item "itunes:image") "href"
       <> CVal (spec_image_by_presence (Sample.podcast 12)
            (Some (new_Map [(VStr "e2", LatestEpisode.to_json (Sample.latest "e2" ""))]))
            "e2").
Proof.
  eexists. eexists.
  split; [vm_compute; reflexivity|].
  split; [reflexivity|].
  repeat split. vm_compute. discriminate.
Qed.

(** C6 (amended): for every selected episode of a conforming document, the
    [itunes:image] href and the [media:content] url are the same value: the
    image of the enrichment entry of the episode's uuid when that image is
    truthy (an entry exists and its image is not empty), else the
    podcast-level image URL, else the empty string; [media:content] also
    carries medium "image" and type "image/jpeg". *)
Theorem episode_image_by_truthiness (h : Host) (r : Root.t) (m : option jsmap)
    (i : nat) (e : Episode.t) :
  nth_error (selection (Podcast.episodes (Root.podcast r))) i = Some e ->
  exists feed item,
    convertToRSS_feed h (Root.to_json r) m = Ok feed
    /\ nth_error (items feed) i = Some item
    /\ attr (custom_element item "itunes:image") "href"
       = CVal (resolved_image (Root.podcast r) m (Episode.uuid e))
    /\ media_attr item "url"
       = CVal (resolved_image (Root.podcast r) m (Episode.uuid e))
    /\ media_attr item "medium" = CVal (VStr "image")
    /\ media_attr item "type" = CVal (VStr "image/jpeg").
Proof.
  intros Hi. destruct (selected_item h r m i e Hi) as (feed & Hfeed & Hitem & _).
  exists feed, (conforming_item (Root.podcast r) m e).
  repeat split; assumption.
Qed.

Lemma episode_image_by_truthiness_witness :
  exists feed item,
    convertToRSS_feed (Sample.host (Throw (HostError "")) (Throw (HostError "")))
      (Root.to_json (Sample.root 12))
      (Some (new_Map [(VStr "e2",
                       LatestEpisode.to_json (Sample.latest "e2" "http://x/e2.jpg"))]))
    = Ok feed
    /\ nth_error (items feed) 0 = Some item
    /\ attr (custom_element item "itunes:image") "href" = CVal (VStr "http://x/e2.jpg")
    /\ media_attr item "url" = CVal (VStr "http://x/e2.jpg")
    /\ media_attr item "medium" = CVal (VStr "image")
    /\ media_attr item "type" = CVal (VStr "image/jpeg").
Proof.
  apply (episode_image_by_truthiness
           (Sample.host (Throw (HostError "")) (Throw (HostError "")))
           (Sample.root 12)
           (Some (new_Map [(VStr "e2",
                            LatestEpisode.to_json (Sample.latest "e2" "http://x/e2.jpg"))]))
           0%nat (Sample.episode 2)).
  reflexivity.
Defined.

(** C10: for every selected episode of a conforming document whose uuid has
    an entry in the enrichment map with a falsy image (the empty string, or
    none at all), both image attributes fall back to the podcast-level image
    URL, or to the empty string when the podcast has none. *)
Theorem falsy_entry_image_falls_back (h : Host) (r : Root.t) (entries : jsmap)
    (i : nat) (e : Episode.t) :
  nth_error (selection (Podcast.episodes (Root.podcast r))) i = Some e ->
  Map_has entries (VStr (Episode.uuid e)) = true ->
  truthy (opt_get (Map_get entries (VStr (Episode.uuid e))) "image") = false ->
  exists feed item,
    convertToRSS_feed h (Root.to_json r) (Some entries) = Ok feed
    /\ nth_error (items feed) i = Some item
    /\ attr (custom_element item "itunes:image") "href"
       = CVal (VStr (text_or_empty (Podcast.image_url (Root.podcast r))))
    /\ media_attr item "url"
       = CVal (VStr (text_or_empty (Podcast.image_url (Root.podcast r)))).
Proof.
  intros Hi _ Hfalsy.
  destruct (selected_item h r (Some entries) i e Hi) as (feed & Hfeed & Hitem & _).
  exists feed, (conforming_item (Root.podcast r) (Some entries) e).
  split; [exact Hfeed|]. split; [exact Hitem|].
  unfold attr, media_attr, custom_element; cbn [conforming_item field lookup find_element String.eqb].
  unfold resolved_image, latest_entry. rewrite Hfalsy.
  split; reflexivity.
Qed.

Lemma falsy_entry_image_falls_back_witness :
  exists feed item,
    convertToRSS_feed (Sample.host (Throw (HostError "")) (Throw (HostError "")))
      (Root.to_json (Sample.root 12))
      (Some (new_Map [(VStr "e2", LatestEpisode.to_json (Sample.latest "e2" ""))]))
    = Ok feed
    /\ nth_error (items feed) 0 = Some item
    /\ attr (custom_element item "itunes:image") "href" = CVal (VStr "http://x/show.jpg")
    /\ media_attr item "url" = CVal (VStr "http://x/show.jpg").
Proof.
  apply (falsy_entry_image_falls_back
           (Sample.host (Throw (HostError "")) (Throw (HostError "")))
           (Sample.root 12)
           (new_Map [(VStr "e2", LatestEpisode.to_json (Sample.latest "e2" ""))])
           0%nat (Sample.episode 2)).
  - reflexivity.
  - reflexivity.
  - reflexivity.
Defined.

(* ================================================================= *)
(** ** Episode duration *)

Lemma floor_truncate_nonneg (q : Q) : (0 <= q)%Q -> Qfloor q = truncate q.
Proof.
  destruct q as [n d]. unfold Qle, Qfloor, truncate; simpl. intros Hq.
  symmetry. apply Z.quot_div_nonneg; lia.
Qed.

(** C7 (as stated, refuted): the selected episode "e3" has duration -1.5;
    its [itunes:duration] is -2, while truncation toward zero gives -1. *)
Lemma duration_truncation_counterexample :
  exists feed item,
    convertToRSS_feed (Sample.host (Throw (HostError "")) (Throw (HostError "")))
      (Root.to_json (Sample.root 12)) None = Ok feed
    /\ nth_error (items feed) 1 = Some item
    /\ field item "guid" = CVal (VStr "e3")
    /\ Episode.duration (Sample.episode 3) = (-3 # 2)%Q
    /\ custom_element item "itunes:duration" = CVal (VNum (Finite (inject_Z (-2))))
    /\ truncate (Episode.duration (Sample.episode 3)) = -1
    /\ custom_element item "itunes:duration"
       <> CVal (VNum (Finite (inject_Z (truncate (Episode.duration (Sample.episode 3)))))).
Proof.
  eexists. eexists.
  split; [vm_compute; reflexivity|].
  split; [reflexivity|].
  repeat split. vm_compute. discriminate.
Qed.

(** C7 (amended): for every selected episode of a conforming document, the
    emitted [itunes:duration] is the floor of the episode's duration, the
    greatest integer not above it; when the duration is not negative this is
    the duration truncated toward zero, so 125.9 seconds are emitted as 125. *)
Theorem itunes_duration_is_floor (h : Host) (r : Root.t) (m : option jsmap)
    (i : nat) (e : Episode.t) :
  nth_error (selection (Podcast.episodes (Root.podcast r))) i = Some e ->
  exists feed item,
    convertToRSS_feed h (Root.to_json r) m = Ok feed
    /\ nth_error (items feed) i = Some item
    /\ custom_element item "itunes:duration"
       = CVal (VNum (Finite (inject_Z (Qfloor (Episode.duration e)))))
    /\ ((0 <= Episode.duration e)%Q ->
        custom_element item "itunes:duration"
        = CVal (VNum (Finite (inject_Z (truncate (Episode.duration e)))))).
Proof.
  intros Hi. destruct (selected_item h r m i e Hi) as (feed & Hfeed & Hitem & _).
  exists feed, (conforming_item (Root.podcast r) m e).
  split; [exact Hfeed|]. split; [exact Hitem|]. split; [reflexivity|].
  intros Hd. rewrite <- (floor_truncate_nonneg _ Hd). reflexivity.
Qed.

Lemma itunes_duration_is_floor_witness :
  Episode.duration (Sample.episode 2) = (1259 # 10)%Q
  /\ exists feed item,
       convertToRSS_feed (Sample.host (Throw (HostError "")) (Throw (HostError "")))
         (Root.to_json (Sample.root 12)) None = Ok feed
       /\ nth_error (items feed) 0 = Some item
       /\ custom_element item "itunes:duration" = CVal (VNum (Finite (inject_Z 125))).
Proof.
  split; [reflexivity|].
  destruct (itunes_duration_is_floor
              (Sample.host (Throw (HostError "")) (Throw (HostError "")))
              (Sample.root 12) None 0%nat (Sample.episode 2) eq_refl)
    as (feed & item & Hfeed & Hitem & _ & Htruncate).
  exists feed, item. split; [exact Hfeed|]. split; [exact Hitem|].
  apply Htruncate. vm_compute. discriminate.
Defined.

(* ================================================================= *)
(** ** The enrichment map *)

Lemma same_value_zero_string (k : value) (s : string) :
  same_value_zero k (VStr s) = true -> k = VStr s.
Proof.
  destruct k; simpl; try discriminate.
  intros H. apply String.eqb_eq in H. now subst.
Qed.

Lemma Map_get_set_same (m : jsmap) (s : string) (v : value) :
  Map_get (Map_set (VStr s) v m) (VStr s) = v.
Proof.
  induction m as [|[k' v'] m IH]; simpl.
  - now rewrite String.eqb_refl.
  - destruct (same_value_zero k' (VStr s)) eqn:E; simpl; now rewrite E.
Qed.

Lemma Map_get_set_other (m : jsmap) (s t : string) (v : value) :
  s <> t ->
  Map_get (Map_set (VStr s) v m) (VStr t) = Map_get m (VStr t).
Proof.
  intros Hne. induction m as [|[k' v'] m IH]; simpl.
  - apply String.eqb_neq in Hne. now rewrite Hne.
  - destruct (same_value_zero k' (VStr s)) eqn:E; simpl.
    + apply same_value_zero_string in E. subst k'. simpl.
      apply String.eqb_neq in Hne. now rewrite Hne.
    + now rewrite IH.
Qed.

Lemma latest_entries_conforming (episodes : list LatestEpisode.t) :
  latest_entries (VArr (map LatestEpisode.to_json episodes))
  = Ok (map latest_entry_of episodes).
Proof.
  unfold latest_entries.
  induction episodes as [|e rest IH]; [reflexivity|].
  cbn [map mapM]. rewrite IH. reflexivity.
Qed.

Lemma later_entries_keep (s : string) (later : list LatestEpisode.t) :
  (forall e', In e' later -> LatestEpisode.uuid e' <> s) ->
  forall m,
    Map_get (fold_left (fun m kv => Map_set (fst kv) (snd kv) m)
                       (map latest_entry_of later) m) (VStr s)
    = Map_get m (VStr s).
Proof.
  induction later as [|e' later IH]; intros Hother m; [reflexivity|].
  cbn [map fold_left]. rewrite IH by (intros x Hx; apply Hother; now right).
  unfold latest_entry_of; cbn [fst snd].
  apply Map_get_set_other. apply Hother. now left.
Qed.

Lemma new_Map_last_wins (earlier later : list LatestEpisode.t) (e : LatestEpisode.t) :
  (forall e', In e' later -> LatestEpisode.uuid e' <> LatestEpisode.uuid e) ->
  Map_get (new_Map (map latest_entry_of (earlier ++ e :: later)))
          (VStr (LatestEpisode.uuid e))
  = LatestEpisode.to_json e.
Proof.
  intros Hother. unfold new_Map.
  rewrite map_app, fold_left_app. cbn [map fold_left].
  rewrite later_entries_keep by exact Hother.
  unfold latest_entry_of at 2 3; cbn [fst snd].
  apply Map_get_set_same.
Qed.

(** C8: when the secondary document is fetched and parsed, the map the
    handler builds from its episodes answers a uuid with the last episode of
    the sequence that has this uuid, whatever entries with the same uuid come
    before it, and the handler reports nothing but the success message. *)
Theorem last_entry_wins (h : Host) (latest : string) (response : FetchResponse)
    (d : LatestPodcastsRoot.t) (earlier later : list LatestEpisode.t)
    (e : LatestEpisode.t) :
  fetch h 1%nat latest = Ok response ->
  ok response = true ->
  json response = Ok (LatestPodcastsRoot.to_json d) ->
  LatestPodcastData.episodes (LatestPodcastsRoot.podcast d) = earlier ++ e :: later ->
  (forall e', In e' later -> LatestEpisode.uuid e' <> LatestEpisode.uuid e) ->
  exists text latestEpisodesMap,
    fetch_latest h latest = ([console_log text], Some latestEpisodesMap)
    /\ Map_get latestEpisodesMap (VStr (LatestEpisode.uuid e)) = LatestEpisode.to_json e.
Proof.
  intros Hfetch Hok Hjson Hsplit Hother.
  unfold fetch_latest. rewrite Hfetch. cbn [bind]. rewrite Hok. cbn [negb].
  rewrite Hjson. cbn [bind].
  change (opt_get (opt_get (LatestPodcastsRoot.to_json d) "podcast") "episodes")
    with (VArr (map LatestEpisode.to_json
                    (LatestPodcastData.episodes (LatestPodcastsRoot.podcast d)))).
  cbn [truthy]. rewrite latest_entries_conforming. cbn [bind].
  eexists. eexists. split; [reflexivity|].
  rewrite Hsplit. now apply new_Map_last_wins.
Qed.

Lemma last_entry_wins_witness :
  exists text latestEpisodesMap,
    fetch_latest
      (Sample.host (Throw (HostError "unused"))
         (Sample.responds (LatestPodcastsRoot.to_json
            {| LatestPodcastsRoot.podcast :=
                 {| LatestPodcastData.episodes :=
                      [ Sample.latest "e2" "http://x/old.jpg";
                        Sample.latest "e3" "http://x/e3.jpg";
                        Sample.latest "e2" "http://x/new.jpg" ] |} |})))
      "https://example.com/latest.json"
    = ([console_log text], Some latestEpisodesMap)
    /\ Map_get latestEpisodesMap (VStr "e2")
       = LatestEpisode.to_json (Sample.latest "e2" "http://x/new.jpg").
Proof.
  apply (last_entry_wins
    (Sample.host (Throw (HostError "unused"))
       (Sample.responds (LatestPodcastsRoot.to_json
          {| LatestPodcastsRoot.podcast :=
               {| LatestPodcastData.episodes :=
                    [ Sample.latest "e2" "http://x/old.jpg";
                      Sample.latest "e3" "http://x/e3.jpg";
                      Sample.latest "e2" "http://x/new.jpg" ] |} |})))
    "https://example.com/latest.json"
    {| ok := true; statusText := "OK";
       json := Ok (LatestPodcastsRoot.to_json
          {| LatestPodcastsRoot.podcast :=
               {| LatestPodcastData.episodes :=
                    [ Sample.latest "e2" "http://x/old.jpg";
                      Sample.latest "e3" "http://x/e3.jpg";
                      Sample.latest "e2" "http://x/new.jpg" ] |} |}) |}
    {| LatestPodcastsRoot.podcast :=
         {| LatestPodcastData.episodes :=
              [ Sample.latest "e2" "http://x/old.jpg";
                Sample.latest "e3" "http://x/e3.jpg";
                Sample.latest "e2" "http://x/new.jpg" ] |} |}
    [ Sample.latest "e2" "http://x/old.jpg"; Sample.latest "e3" "http://x/e3.jpg" ]
    []
    (Sample.latest "e2" "http://x/new.jpg")).
  - reflexivity.
  - reflexivity.
  - reflexivity.
  - reflexivity.
  - intros e' Hin. destruct Hin.
Defined.

(* ================================================================= *)
(** ** Feed-level fields *)

(** C9: for every conforming primary document, [convertToRSS] builds a feed
    whose options carry the podcast's title, description and author exactly
    as the document has them. *)
Theorem feed_fields_are_verbatim (h : Host) (r : Root.t) (m : option jsmap) :
  exists feed,
    convertToRSS_feed h (Root.to_json r) m = Ok feed
    /\ convertToRSS h (Root.to_json r) m = Ok (rss_xml h (options feed) (items feed))
    /\ field (options feed) "title" = CVal (VStr (Podcast.title (Root.podcast r)))
    /\ field (options feed) "description"
       = CVal (VStr (Podcast.description (Root.podcast r)))
    /\ field (options feed) "author" = CVal (VStr (Podcast.author (Root.podcast r))).
Proof.
  eexists. split; [apply convertToRSS_feed_conforming|].
  unfold convertToRSS. rewrite convertToRSS_feed_conforming.
  repeat split.
Qed.


(* ================================================================= *)
(** * Further properties of the handler *)

Lemma handler_convert (h : Host) (req : Request) (u : string) :
  pathname (url req) = "/convert" ->
  searchParams_get (url req) "url" = Some u ->
  nonempty u = true ->
  handler h req
  = respond (convert_request h u (searchParams_get (url req) "latestPodcastsUrl")) h.
Proof.
  intros Hpath Hu Hne. unfold handler. rewrite Hpath, Hu, Hne. reflexivity.
Qed.

Lemma respond_status (h : Host) (outcome : list console_call * result string) :
  status (snd (respond outcome h)) = 200%nat
  \/ status (snd (respond outcome h)) = 500%nat.
Proof.
  destruct outcome as [console [rssFeed|e]]; [left|right]; reflexivity.
Qed.

(** X1: the handler answers 404 exactly when the path is not [/convert], and
    400 exactly when the path is [/convert] and the [url] parameter is
    missing or empty. *)
Theorem status_404_and_400 (h : Host) (req : Request) :
  (status (snd (handler h req)) = 404%nat <-> pathname (url req) <> "/convert")
  /\ (status (snd (handler h req)) = 400%nat <->
      pathname (url req) = "/convert"
      /\ (searchParams_get (url req) "url" = None
          \/ searchParams_get (url req) "url" = Some "")).
Proof.
  unfold handler.
  destruct (String.eqb (pathname (url req)) "/convert") eqn:P; cbn [negb].
  - apply String.eqb_eq in P.
    destruct (searchParams_get (url req) "url") as [u|] eqn:U.
    + destruct (nonempty u) eqn:N; cbn [negb].
      * assert (u <> "") as Hu by (intros ->; discriminate N).
        destruct (respond_status h
                    (convert_request h u
                       (searchParams_get (url req) "latestPodcastsUrl"))) as [S|S];
          rewrite S; intuition (discriminate || congruence).
      * unfold nonempty in N. apply negb_false_iff, String.eqb_eq in N. subst u.
        cbn. intuition (discriminate || congruence).
    + cbn. intuition (discriminate || congruence).
  - apply String.eqb_neq in P. cbn. intuition (discriminate || congruence).
Qed.

(** X2: every response has status 200, 400, 404 or 500; a 200 carries the
    single header [Content-Type: application/rss+xml; charset=utf-8], and the
    other responses carry no header the program set. *)
Theorem response_status_and_headers (h : Host) (req : Request) :
  (status (snd (handler h req)) = 200%nat
   /\ headers (snd (handler h req))
      = [("Content-Type", "application/rss+xml; charset=utf-8")])
  \/ ((status (snd (handler h req)) = 400%nat
       \/ status (snd (handler h req)) = 404%nat
       \/ status (snd (handler h req)) = 500%nat)
      /\ headers (snd (handler h req)) = []).
Proof.
  unfold handler.
  destruct (negb (String.eqb (pathname (url req)) "/convert")); [right; cbn; tauto|].
  destruct (searchParams_get (url req) "url") as [u|]; [|right; cbn; tauto].
  destruct (negb (nonempty u)); [right; cbn; tauto|].
  destruct (convert_request h u _) as [console [rssFeed|e]]; cbn; tauto.
Qed.

Lemma fetch_latest_console (h : Host) (u : string) :
  exists c, fst (fetch_latest h u) = [c] /\ not_console_error c.
Proof.
  unfold fetch_latest.
  destruct (fetch h 1%nat u) as [response|e]; cbn [bind];
    [|eexists; split; [reflexivity|exact I]].
  destruct (ok response); cbn [negb];
    [|eexists; split; [reflexivity|exact I]].
  destruct (json response) as [latestData|e]; cbn [bind];
    [|eexists; split; [reflexivity|exact I]].
  destruct (truthy _);
    [|eexists; split; [reflexivity|exact I]].
  destruct (latest_entries _) as [entries|e]; cbn [bind];
    eexists; (split; [reflexivity|exact I]).
Qed.

Lemma convert_request_console (h : Host) (u : string) (latest : option string) :
  fst (convert_request h u latest) = []
  \/ exists c, fst (convert_request h u latest) = [c] /\ not_console_error c.
Proof.
  unfold convert_request.
  destruct (decodeURIComponent h u) as [podcastJsonUrl|e]; [|now left].
  destruct (decode_latest h latest) as [latestUrl|e]; [|now left].
  destruct (fetch h 0%nat podcastJsonUrl) as [response|e]; cbn [bind]; [|now left].
  destruct (ok response); cbn [negb]; [|now left].
  destruct (json response) as [podcastData|e]; [|now left].
  unfold latest_episodes_map.
  destruct latestUrl as [l|]; [|now left].
  destruct (nonempty l); [|now left].
  destruct (fetch_latest_console h l) as (c & Hc & Hn).
  destruct (fetch_latest h l) as [console m]. cbn [fst] in *. subst console.
  right. exists c. now split.
Qed.

(** X3: [console.error] is called exactly when the response is a 500, and a
    request causes at most two console calls. *)
Theorem console_error_iff_500 (h : Host) (req : Request) :
  (status (snd (handler h req)) = 500%nat
   <-> exists e, In (console_error "Conversion error:" e) (fst (handler h req)))
  /\ (List.length (fst (handler h req)) <= 2)%nat.
Proof.
  unfold handler.
  destruct (negb (String.eqb (pathname (url req)) "/convert")).
  { cbn. split; [|lia]. split; [discriminate|]. intros [e []]. }
  destruct (searchParams_get (url req) "url") as [u|].
  2:{ cbn. split; [|lia]. split; [discriminate|]. intros [e []]. }
  destruct (negb (nonempty u)).
  { cbn. split; [|lia]. split; [discriminate|]. intros [e []]. }
  pose proof (convert_request_console h u
                (searchParams_get (url req) "latestPodcastsUrl")) as Hc.
  destruct (convert_request h u _) as [console [rssFeed|e]]; cbn [fst] in Hc;
    cbn [respond fst snd new_Response status].
  - split.
    + split; [discriminate|]. intros [e Hin].
      destruct Hc as [->|(c & -> & Hn)]; [destruct Hin|].
      destruct Hin as [Hin|[]]. subst c. destruct Hn.
    + destruct Hc as [->|(c & -> & _)]; cbn; lia.
  - split.
    + split; [|reflexivity]. intros _. exists e.
      apply in_or_app. right. now left.
    + rewrite length_app. destruct Hc as [->|(c & -> & _)]; cbn; lia.
Qed.

(** X4: when the primary fetch fails (the network throws, the status is not
    a success, or the body is not JSON), a request to [/convert] is answered
    with status 500 and the body "Failed to convert podcast JSON: " followed
    by the error's message; the only console call is the [console.error], so
    the secondary URL is never fetched. *)
Theorem primary_failure_is_500 (h : Host) (req : Request) (u fetched : string)
    (latest : option string) (e : thrown) :
  pathname (url req) = "/convert" ->
  searchParams_get (url req) "url" = Some u ->
  nonempty u = true ->
  decodeURIComponent h u = Ok fetched ->
  decode_latest h (searchParams_get (url req) "latestPodcastsUrl") = Ok latest ->
  primary_failure h fetched e ->
  handler h req
  = ([console_error "Conversion error:" e],
     new_Response ("Failed to convert podcast JSON: " ++ message h e)
       (Some 500%nat) []).
Proof.
  intros Hpath Hu Hne Hdec Hlatest Hfail.
  rewrite (handler_convert h req u Hpath Hu Hne).
  unfold convert_request. rewrite Hdec, Hlatest.
  destruct Hfail as [e He | response Hf Hok | response e Hf Hok Hj];
    rewrite ?He, ?Hf; cbn [bind]; rewrite ?Hok; cbn [negb]; rewrite ?Hj;
    reflexivity.
Qed.

Lemma primary_failure_is_500_witness :
  handler
    (Sample.host (Ok {| ok := false; statusText := "Not Found";
                        json := Throw (HostError "unused") |})
                 (Throw (HostError "unused")))
    (Sample.request "GET" "/convert"
       [("url", "https://example.com/podcast.json");
        ("latestPodcastsUrl", "https://example.com/latest.json")])
  = ([console_error "Conversion error:"
        (NewError "Failed to fetch podcast JSON: Not Found from https://example.com/podcast.json")],
     new_Response
       "Failed to convert podcast JSON: Failed to fetch podcast JSON: Not Found from https://example.com/podcast.json"
       (Some 500%nat) []).
Proof.
  apply (primary_failure_is_500
    (Sample.host (Ok {| ok := false; statusText := "Not Found";
                        json := Throw (HostError "unused") |})
                 (Throw (HostError "unused")))
    (Sample.request "GET" "/convert"
       [("url", "https://example.com/podcast.json");
        ("latestPodcastsUrl", "https://example.com/latest.json")])
    "https://example.com/podcast.json" "https://example.com/podcast.json"
    (Some "https://example.com/latest.json")).
  - reflexivity.
  - reflexivity.
  - reflexivity.
  - reflexivity.
  - reflexivity.
  - apply (primary_non_success_status _ _
             {| ok := false; statusText := "Not Found";
                json := Throw (HostError "unused") |}); reflexivity.
Defined.

(** X5: a [url] or [latestPodcastsUrl] parameter that [decodeURIComponent]
    rejects makes the handler answer 500 with the decoder's message, before
    anything is fetched: the secondary parameter is decoded outside the
    inner [try], so unlike a failing secondary fetch this failure is not
    swallowed. *)
Theorem undecodable_parameter_is_500 (h : Host) (req : Request) (u : string)
    (e : thrown) :
  pathname (url req) = "/convert" ->
  searchParams_get (url req) "url" = Some u ->
  nonempty u = true ->
  decodeURIComponent h u = Throw e
  \/ (exists fetched p,
        decodeURIComponent h u = Ok fetched
        /\ searchParams_get (url req) "latestPodcastsUrl" = Some p
        /\ nonempty p = true
        /\ decodeURIComponent h p = Throw e) ->
  handler h req
  = ([console_error "Conversion error:" e],
     new_Response ("Failed to convert podcast JSON: " ++ message h e)
       (Some 500%nat) []).
Proof.
  intros Hpath Hu Hne Hfail.
  rewrite (handler_convert h req u Hpath Hu Hne).
  unfold convert_request.
  destruct Hfail as [He | (fetched & p & Hdec & Hp & Hnp & He)].
  - now rewrite He.
  - rewrite Hdec, Hp. unfold decode_latest. rewrite Hnp, He. reflexivity.
Qed.

Lemma undecodable_parameter_is_500_witness :
  handler
    (with_decodeURIComponent
       (Sample.host (Sample.responds (Root.to_json (Sample.root 12)))
                    (Sample.responds VNull))
       (fun s => if String.eqb s "%" then Throw (HostError "URI malformed")
                 else Ok s))
    (Sample.request "GET" "/convert"
       [("url", "https://example.com/podcast.json"); ("latestPodcastsUrl", "%")])
  = ([console_error "Conversion error:" (HostError "URI malformed")],
     new_Response "Failed to convert podcast JSON: URI malformed" (Some 500%nat) []).
Proof.
  apply (undecodable_parameter_is_500
    (with_decodeURIComponent
       (Sample.host (Sample.responds (Root.to_json (Sample.root 12)))
                    (Sample.responds VNull))
       (fun s => if String.eqb s "%" then Throw (HostError "URI malformed")
                 else Ok s))
    (Sample.request "GET" "/convert"
       [("url", "https://example.com/podcast.json"); ("latestPodcastsUrl", "%")])
    "https://example.com/podcast.json").
  - reflexivity.
  - reflexivity.
  - reflexivity.
  - right. exists "https://example.com/podcast.json", "%".
    repeat split.
Defined.

(** X6: an empty [latestPodcastsUrl] parameter counts as none: the request
    is served exactly like the same request without that parameter. *)
Theorem empty_latest_parameter_is_ignored (h : Host) (req : Request) :
  searchParams_get (url req) "latestPodcastsUrl" = Some "" ->
  handler h req = handler h (without_latest req).
Proof.
  intros Hempty. unfold handler, without_latest, searchParams_get in *.
  cbn [url pathname searchParams].
  rewrite lookup_filter_other by discriminate.
  rewrite lookup_filter_removed, Hempty.
  reflexivity.
Qed.

Lemma empty_latest_parameter_is_ignored_witness :
  handler (Sample.host (Sample.responds (Root.to_json (Sample.root 12)))
                       (Throw (HostError "unused")))
          (Sample.request "GET" "/convert"
             [("url", "https://example.com/podcast.json"); ("latestPodcastsUrl", "")])
  = handler (Sample.host (Sample.responds (Root.to_json (Sample.root 12)))
                         (Throw (HostError "unused")))
            (without_latest
               (Sample.request "GET" "/convert"
                  [("url", "https://example.com/podcast.json");
                   ("latestPodcastsUrl", "")])).
Proof.
  apply (empty_latest_parameter_is_ignored
    (Sample.host (Sample.responds (Root.to_json (Sample.root 12)))
                 (Throw (HostError "unused")))
    (Sample.request "GET" "/convert"
       [("url", "https://example.com/podcast.json"); ("latestPodcastsUrl", "")])).
  reflexivity.
Defined.

(** X7: when both fetches succeed with conforming documents, the handler
    logs how many distinct entries the map got, and answers 200 with the
    serialisation [convertToRSS] returns for the primary document and the map
    built from the secondary document's episodes. *)
Theorem enriched_request_succeeds (h : Host) (req : Request) (r : Root.t)
    (latest : string) (response : FetchResponse) (d : LatestPodcastsRoot.t) :
  primary_document h req (Root.to_json r) ->
  secondary_url h req latest ->
  fetch h 1%nat latest = Ok response ->
  ok response = true ->
  json response = Ok (LatestPodcastsRoot.to_json d) ->
  exists entries rssFeed,
    latest_entries
      (VArr (map LatestEpisode.to_json
                 (LatestPodcastData.episodes (LatestPodcastsRoot.podcast d))))
    = Ok entries
    /\ convertToRSS h (Root.to_json r) (Some (new_Map entries)) = Ok rssFeed
    /\ handler h req
       = ([console_log ("Successfully fetched and mapped "
                        ++ decimal (Map_size (new_Map entries))
                        ++ " episodes from latest podcasts URL.")],
          new_Response rssFeed None
            [("Content-Type", "application/rss+xml; charset=utf-8")]).
Proof.
  intros Hreq [Hdec Hne] Hfetch Hok Hjson.
  eexists. eexists. split; [apply latest_entries_conforming|].
  split.
  - unfold convertToRSS. rewrite convertToRSS_feed_conforming. reflexivity.
  - rewrite (handler_primary_document h req _ Hreq), Hdec.
    unfold latest_episodes_map. rewrite Hne.
    unfold fetch_latest. rewrite Hfetch. cbn [bind]. rewrite Hok. cbn [negb].
    rewrite Hjson. cbn [bind].
    change (opt_get (opt_get (LatestPodcastsRoot.to_json d) "podcast") "episodes")
      with (VArr (map LatestEpisode.to_json
                      (LatestPodcastData.episodes (LatestPodcastsRoot.podcast d)))).
    cbn [truthy]. rewrite latest_entries_conforming. cbn [bind fst snd].
    unfold convertToRSS. rewrite convertToRSS_feed_conforming. reflexivity.
Qed.

Lemma enriched_request_succeeds_witness :
  exists entries rssFeed,
    latest_entries
      (VArr (map LatestEpisode.to_json [Sample.latest "e2" "http://x/e2.jpg"]))
    = Ok entries
    /\ convertToRSS
         (Sample.host (Sample.responds (Root.to_json (Sample.root 12)))
            (Sample.responds (LatestPodcastsRoot.to_json
               {| LatestPodcastsRoot.podcast :=
                    {| LatestPodcastData.episodes :=
                         [Sample.latest "e2" "http://x/e2.jpg"] |} |})))
         (Root.to_json (Sample.root 12)) (Some (new_Map entries)) = Ok rssFeed
    /\ handler
         (Sample.host (Sample.responds (Root.to_json (Sample.root 12)))
            (Sample.responds (LatestPodcastsRoot.to_json
               {| LatestPodcastsRoot.podcast :=
                    {| LatestPodcastData.episodes :=
                         [Sample.latest "e2" "http://x/e2.jpg"] |} |})))
         (Sample.request "GET" "/convert"
            [("url", "https://example.com/podcast.json");
             ("latestPodcastsUrl", "https://example.com/latest.json")])
       = ([console_log ("Successfully fetched and mapped "
                        ++ decimal (Map_size (new_Map entries))
                        ++ " episodes from latest podcasts URL.")],
          new_Response rssFeed None
            [("Content-Type", "application/rss+xml; charset=utf-8")]).
Proof.
  apply (enriched_request_succeeds
    (Sample.host (Sample.responds (Root.to_json (Sample.root 12)))
       (Sample.responds (LatestPodcastsRoot.to_json
          {| LatestPodcastsRoot.podcast :=
               {| LatestPodcastData.episodes :=
                    [Sample.latest "e2" "http://x/e2.jpg"] |} |})))
    (Sample.request "GET" "/convert"
       [("url", "https://example.com/podcast.json");
        ("latestPodcastsUrl", "https://example.com/latest.json")])
    (Sample.root 12)
    "https://example.com/latest.json"
    {| ok := true; statusText := "OK";
       json := Ok (LatestPodcastsRoot.to_json
          {| LatestPodcastsRoot.podcast :=
               {| LatestPodcastData.episodes :=
                    [Sample.latest "e2" "http://x/e2.jpg"] |} |}) |}
    {| LatestPodcastsRoot.podcast :=
         {| LatestPodcastData.episodes := [Sample.latest "e2" "http://x/e2.jpg"] |} |}).
  - split; [reflexivity|].
    exists "https://example.com/podcast.json", "https://example.com/podcast.json",
      {| ok := true; statusText := "OK"; json := Ok (Root.to_json (Sample.root 12)) |}.
    repeat split.
  - split; reflexivity.
  - reflexivity.
  - reflexivity.
  - reflexivity.
Defined.

(* ================================================================= *)
(** * Further properties of the selection *)

Lemma selection_length {A : Type} (l : list A) :
  List.length (selection l) = if two_selected (List.length l) then 2%nat else 0%nat.
Proof.
  destruct (Nat.le_gt_cases 10 (List.length l)) as [Hn|Hn].
  - destruct (selection_of_ten_or_more l Hn) as (a & b & _ & _ & ->).
    unfold two_selected.
    replace (10 <=? List.length l)%nat with true
      by (symmetry; now apply Nat.leb_le).
    now rewrite orb_true_r.
  - do 10 (destruct l as [|? l]; [reflexivity|]).
    simpl in Hn. lia.
Qed.

(** X8: the feed of a conforming document has exactly two items when the
    document has 5, 6, 7 or at least 10 episodes, and no item otherwise (fewer
    than 5 episodes, or 8 or 9); it never has more than two. *)
Theorem feed_has_two_items_or_none (h : Host) (r : Root.t) (m : option jsmap) :
  exists feed,
    convertToRSS_feed h (Root.to_json r) m = Ok feed
    /\ List.length (items feed)
       = if two_selected (List.length (Podcast.episodes (Root.podcast r)))
         then 2%nat else 0%nat.
Proof.
  eexists. split; [apply convertToRSS_feed_conforming|].
  cbn [items]. rewrite length_map. apply selection_length.
Qed.

Lemma selection_wraps {A : Type} (l : list A) :
  (5 <= List.length l <= 7)%nat ->
  exists a b,
    nth_error l (2 * List.length l - 10) = Some a
    /\ nth_error l (2 * List.length l - 9) = Some b
    /\ selection l = [a; b].
Proof.
  intros [Hlo Hhi].
  do 5 (destruct l as [|? l]; [simpl in Hlo; lia|]).
  destruct l as [|? l]; [eexists; eexists; repeat split|].
  destruct l as [|? l]; [eexists; eexists; repeat split|].
  destruct l as [|? l]; [eexists; eexists; repeat split|].
  simpl in Hhi. lia.
Qed.

(** X9: with 5, 6 or 7 episodes the negative start of the slice counts from
    the end: the two items of the feed are built from the episodes at indices
    [2 * length - 10] and [2 * length - 9], in that order. *)
Theorem short_catalogue_selection (h : Host) (r : Root.t) (m : option jsmap) :
  (5 <= List.length (Podcast.episodes (Root.podcast r)) <= 7)%nat ->
  exists e1 e2 item1 item2 feed,
    nth_error (Podcast.episodes (Root.podcast r))
              (2 * List.length (Podcast.episodes (Root.podcast r)) - 10) = Some e1
    /\ nth_error (Podcast.episodes (Root.podcast r))
                 (2 * List.length (Podcast.episodes (Root.podcast r)) - 9) = Some e2
    /\ convertToRSS_feed h (Root.to_json r) m = Ok feed
    /\ items feed = [item1; item2]
    /\ episode_item h (Podcast.to_json (Root.podcast r)) m (Episode.to_json e1) = Ok item1
    /\ episode_item h (Podcast.to_json (Root.podcast r)) m (Episode.to_json e2) = Ok item2.
Proof.
  intros Hn.
  destruct (selection_wraps _ Hn) as (e1 & e2 & H1 & H2 & Hsel).
  exists e1, e2, (conforming_item (Root.podcast r) m e1),
    (conforming_item (Root.podcast r) m e2).
  eexists. split; [exact H1|]. split; [exact H2|].
  split; [apply convertToRSS_feed_conforming|].
  cbn [items]. rewrite Hsel. cbn [map].
  repeat split; apply episode_item_conforming.
Qed.

Lemma short_catalogue_selection_witness :
  exists e1 e2 item1 item2 feed,
    nth_error (Podcast.episodes (Sample.podcast 6)) 2 = Some e1
    /\ nth_error (Podcast.episodes (Sample.podcast 6)) 3 = Some e2
    /\ convertToRSS_feed (Sample.host (Throw (HostError "")) (Throw (HostError "")))
         (Root.to_json (Sample.root 6)) None = Ok feed
    /\ items feed = [item1; item2]
    /\ episode_item (Sample.host (Throw (HostError "")) (Throw (HostError "")))
         (Podcast.to_json (Sample.podcast 6)) None (Episode.to_json e1) = Ok item1
    /\ episode_item (Sample.host (Throw (HostError "")) (Throw (HostError "")))
         (Podcast.to_json (Sample.podcast 6)) None (Episode.to_json e2) = Ok item2.
Proof.
  apply (short_catalogue_selection
           (Sample.host (Throw (HostError "")) (Throw (HostError "")))
           (Sample.root 6) None).
  vm_compute. lia.
Defined.

Lemma slice_segment {A : Type} (l : list A) (start end_ : Z) :
  exists before after, l = before ++ slice l start end_ ++ after.
Proof.
  unfold slice.
  set (k := Z.to_nat (relative_index (Z.of_nat (List.length l)) start)).
  set (c := Z.to_nat (relative_index (Z.of_nat (List.length l)) end_
                      - relative_index (Z.of_nat (List.length l)) start)).
  exists (firstn k l), (skipn c (skipn k l)).
  now rewrite firstn_skipn, firstn_skipn.
Qed.

(** X10: whatever the number of episodes, the items of the feed are built,
    one each and in catalogue order, from a run of consecutive episodes of
    the document. *)
Theorem items_follow_catalogue_order (h : Host) (r : Root.t) (m : option jsmap) :
  exists before selected after feed,
    Podcast.episodes (Root.podcast r) = before ++ selected ++ after
    /\ convertToRSS_feed h (Root.to_json r) m = Ok feed
    /\ Forall2 (fun e item =>
                  episode_item h (Podcast.to_json (Root.podcast r)) m
                               (Episode.to_json e) = Ok item)
               selected (items feed).
Proof.
  destruct (slice_segment (Podcast.episodes (Root.podcast r))
              (Z.of_nat (List.length (Podcast.episodes (Root.podcast r))) - 10)
              (Z.of_nat (List.length (Podcast.episodes (Root.podcast r))) - 8))
    as (before & after & Hsplit).
  exists before, (selection (Podcast.episodes (Root.podcast r))), after.
  eexists. split; [exact Hsplit|].
  split; [apply convertToRSS_feed_conforming|].
  cbn [items].
  induction (selection (Podcast.episodes (Root.podcast r))) as [|e rest IH];
    cbn [map]; constructor; [apply episode_item_conforming|exact IH].
Qed.

(* ================================================================= *)
(** * Further properties of the enrichment map *)

Lemma Map_has_string (m : jsmap) (s : string) :
  Map_has m (VStr s) = true <-> In (VStr s) (map fst m).
Proof.
  induction m as [|[k v] m IH]; cbn [Map_has map fst In]; [split; [discriminate|tauto]|].
  rewrite orb_true_iff, IH. split; intros [H|H]; auto.
  - left. now apply same_value_zero_string.
  - left. subst k. cbn. apply String.eqb_refl.
Qed.

Lemma Map_set_keys (m : jsmap) (s : string) (v : value) :
  map fst (Map_set (VStr s) v m)
  = if Map_has m (VStr s) then map fst m else map fst m ++ [VStr s].
Proof.
  induction m as [|[k' v'] m IH]; [reflexivity|].
  cbn [Map_set Map_has].
  destruct (same_value_zero k' (VStr s)); cbn [orb map fst]; [reflexivity|].
  rewrite IH. now destruct (Map_has m (VStr s)).
Qed.

Lemma Map_get_absent (m : jsmap) (k : value) :
  Map_has m k = false -> Map_get m k = VUndefined.
Proof.
  induction m as [|[k' v'] m IH]; [reflexivity|].
  cbn [Map_has Map_get]. intros H. apply orb_false_iff in H as [H1 H2].
  rewrite H1. now apply IH.
Qed.

Lemma fold_Map_set_keys (episodes : list LatestEpisode.t) :
  forall m,
    NoDup (map fst m) ->
    let m' := fold_left (fun m kv => Map_set (fst kv) (snd kv) m)
                        (map latest_entry_of episodes) m in
    NoDup (map fst m')
    /\ (forall k, In k (map fst m')
                  <-> In k (map fst m)
                      \/ In k (map (fun e => VStr (LatestEpisode.uuid e)) episodes))
    /\ (List.length m' <= List.length m + List.length episodes)%nat.
Proof.
  induction episodes as [|e rest IH]; intros m Hm; cbn zeta.
  - cbn. split; [exact Hm|]. split; [tauto|lia].
  - cbn [map fold_left].
    change (Map_set (fst (latest_entry_of e)) (snd (latest_entry_of e)) m)
      with (Map_set (VStr (LatestEpisode.uuid e)) (LatestEpisode.to_json e) m).
    set (m1 := Map_set (VStr (LatestEpisode.uuid e)) (LatestEpisode.to_json e) m).
    assert (Hkeys : map fst m1
                    = if Map_has m (VStr (LatestEpisode.uuid e)) then map fst m
                      else map fst m ++ [VStr (LatestEpisode.uuid e)])
      by apply Map_set_keys.
    assert (Hm1 : NoDup (map fst m1)).
    { rewrite Hkeys. destruct (Map_has m _) eqn:Hhas; [exact Hm|].
      apply NoDup_app; [exact Hm|repeat constructor; intros []|].
      intros k Hin [<-|[]].
      apply Map_has_string in Hin. congruence. }
    assert (Hin1 : forall k, In k (map fst m1)
                             <-> In k (map fst m) \/ k = VStr (LatestEpisode.uuid e)).
    { intros k. rewrite Hkeys. destruct (Map_has m _) eqn:Hhas.
      - apply Map_has_string in Hhas. split; [tauto|].
        intros [H| ->]; assumption.
      - rewrite in_app_iff. cbn [In]. split; intros [H|H]; auto.
        + destruct H as [<-|[]]. now right. }
    assert (Hlen : (List.length m1 <= List.length m + 1)%nat).
    { rewrite <- (length_map fst m1), Hkeys, <- (length_map fst m).
      destruct (Map_has m _); [lia|]. rewrite length_app. cbn. lia. }
    destruct (IH m1 Hm1) as (Hnd & Hin & Hle). cbn zeta in *.
    split; [exact Hnd|]. split.
    + intros k. rewrite Hin, Hin1. cbn [In]. split; intros H.
      * destruct H as [[H|H]|H]; auto.
      * destruct H as [H|[H|H]]; auto.
    + cbn [List.length]. lia.
Qed.

(** X11: the map built from a conforming secondary document has pairwise
    different keys and at most as many entries as the document has episodes;
    it has a key for exactly the uuids that occur in the document, and
    [get] answers [undefined] for every other uuid. *)
Theorem enrichment_map_keys (episodes : list LatestEpisode.t) :
  exists entries,
    latest_entries (VArr (map LatestEpisode.to_json episodes)) = Ok entries
    /\ NoDup (map fst (new_Map entries))
    /\ (Map_size (new_Map entries) <= List.length episodes)%nat
    /\ (forall u, Map_has (new_Map entries) (VStr u) = true
                  <-> In u (map LatestEpisode.uuid episodes))
    /\ (forall u, ~ In u (map LatestEpisode.uuid episodes) ->
                  Map_get (new_Map entries) (VStr u) = VUndefined).
Proof.
  eexists. split; [apply latest_entries_conforming|].
  destruct (fold_Map_set_keys episodes [] (NoDup_nil _)) as (Hnd & Hin & Hle).
  cbn zeta in *. fold (new_Map (map latest_entry_of episodes)) in *.
  assert (Hhas : forall u, Map_has (new_Map (map latest_entry_of episodes)) (VStr u) = true
                           <-> In u (map LatestEpisode.uuid episodes)).
  { intros u. rewrite Map_has_string, Hin. cbn [map In].
    rewrite !in_map_iff. split.
    - intros [[]|(e & He & Hine)]. exists e. split; [congruence|exact Hine].
    - intros (e & <- & Hine). right. exists e. now split. }
  split; [exact Hnd|]. split; [exact Hle|]. split; [exact Hhas|].
  intros u Hu. apply Map_get_absent.
  destruct (Map_has _ (VStr u)) eqn:E; [|reflexivity].
  apply Hhas in E. contradiction.
Qed.

(* ================================================================= *)
(** * What the conversion does not read *)

Lemma selection_map {A B : Type} (f : A -> B) (l : list A) :
  selection (map f l) = map f (selection l).
Proof.
  unfold selection. rewrite length_map. apply slice_map.
Qed.

(** X12: the optional [image_url] of an episode is never used: replacing it
    in every episode of a conforming document, by anything, leaves the
    result of [convertToRSS] unchanged. *)
Theorem episode_image_url_is_ignored (h : Host) (r : Root.t) (m : option jsmap)
    (image : Episode.t -> option string) :
  convertToRSS h (Root.to_json (with_episode_images image r)) m
  = convertToRSS h (Root.to_json r) m.
Proof.
  unfold convertToRSS. rewrite !convertToRSS_feed_conforming. cbn [bind].
  unfold feed_xml. cbn [options items].
  unfold with_episode_images. cbn [Root.podcast Podcast.episodes].
  rewrite selection_map, map_map.
  reflexivity.
Qed.

Lemma get_truthy (v : value) (name : string) :
  truthy v = true -> get v name = Ok (member v name).
Proof.
  destruct v; try reflexivity; discriminate.
Qed.

(** X13: of the root document only the [podcast] member is read: two
    documents that are both truthy and have the same [podcast] member give
    the same result, whatever their other members are. *)
Theorem root_metadata_is_ignored (h : Host) (doc doc' : value) (m : option jsmap) :
  truthy doc = true ->
  truthy doc' = true ->
  member doc "podcast" = member doc' "podcast" ->
  convertToRSS h doc m = convertToRSS h doc' m.
Proof.
  intros T T' Hsame. unfold convertToRSS, convertToRSS_feed.
  rewrite T, T', (get_truthy doc _ T), (get_truthy doc' _ T'), Hsame.
  reflexivity.
Qed.

Lemma root_metadata_is_ignored_witness :
  convertToRSS (Sample.host (Throw (HostError "")) (Throw (HostError "")))
    (Root.to_json (Sample.root 12)) None
  = convertToRSS (Sample.host (Throw (HostError "")) (Throw (HostError "")))
      (VObj [("episode_count", VStr "many");
             ("podcast", Podcast.to_json (Sample.podcast 12))]) None.
Proof.
  apply (root_metadata_is_ignored
           (Sample.host (Throw (HostError "")) (Throw (HostError "")))
           (Root.to_json (Sample.root 12))
           (VObj [("episode_count", VStr "many");
                  ("podcast", Podcast.to_json (Sample.podcast 12))]) None).
  - reflexivity.
  - reflexivity.
  - reflexivity.
Defined.

(** X14: the enrichment map influences the feed of a conforming document
    only through the [image] of the entries of the selected episodes' uuids:
    two maps (or a map and none) that agree on those give the same feed. *)
Theorem only_entry_images_matter (h : Host) (r : Root.t) (m m' : option jsmap) :
  (forall e, In e (selection (Podcast.episodes (Root.podcast r))) ->
             opt_get (latest_entry m (VStr (Episode.uuid e))) "image"
             = opt_get (latest_entry m' (VStr (Episode.uuid e))) "image") ->
  convertToRSS_feed h (Root.to_json r) m = convertToRSS_feed h (Root.to_json r) m'.
Proof.
  intros Hsame. rewrite !convertToRSS_feed_conforming.
  f_equal. f_equal. apply map_ext_in. intros e He.
  unfold conforming_item, resolved_image. now rewrite (Hsame e He).
Qed.

Lemma only_entry_images_matter_witness :
  convertToRSS_feed (Sample.host (Throw (HostError "")) (Throw (HostError "")))
    (Root.to_json (Sample.root 12)) None
  = convertToRSS_feed (Sample.host (Throw (HostError "")) (Throw (HostError "")))
      (Root.to_json (Sample.root 12))
      (Some (new_Map [(VStr "e7",
                       LatestEpisode.to_json (Sample.latest "e7" "http://x/e7.jpg"))])).
Proof.
  apply (only_entry_images_matter
           (Sample.host (Throw (HostError "")) (Throw (HostError "")))
           (Sample.root 12) None
           (Some (new_Map [(VStr "e7",
                            LatestEpisode.to_json (Sample.latest "e7" "http://x/e7.jpg"))]))).
  intros e He. vm_compute in He.
  destruct He as [<-|[<-|[]]]; reflexivity.
Defined.

(* ================================================================= *)
(** * Further properties of the field mapping *)

(** X15: for every selected episode of a conforming document, the item's
    link and the enclosure url are both the episode's [url]; the enclosure
    size and type are its [file_size] and [file_type]; title and date come
    from [title] and [published], the description is empty, the author is
    the podcast's author, and [itunes:episodeType] is the episode's [type]. *)
Theorem item_fields (h : Host) (r : Root.t) (m : option jsmap) (i : nat)
    (e : Episode.t) :
  nth_error (selection (Podcast.episodes (Root.podcast r))) i = Some e ->
  exists feed item,
    convertToRSS_feed h (Root.to_json r) m = Ok feed
    /\ nth_error (items feed) i = Some item
    /\ field item "title" = CVal (VStr (Episode.title e))
    /\ field item "description" = CVal (VStr "")
    /\ field item "url" = CVal (VStr (Episode.url e))
    /\ field item "date" = CDate (VStr (Episode.published e))
    /\ field (field item "enclosure") "url" = CVal (VStr (Episode.url e))
    /\ field (field item "enclosure") "size"
       = CVal (VNum (Finite (Episode.file_size e)))
    /\ field (field item "enclosure") "type" = CVal (VStr (Episode.file_type e))
    /\ field item "author" = CVal (VStr (Podcast.author (Root.podcast r)))
    /\ custom_element item "itunes:episodeType" = CVal (VStr (Episode.type e)).
Proof.
  intros Hi. destruct (selected_item h r m i e Hi) as (feed & Hfeed & Hitem & _).
  exists feed, (conforming_item (Root.podcast r) m e).
  split; [exact Hfeed|]. split; [exact Hitem|].
  repeat split.
Qed.

Lemma item_fields_witness :
  exists feed item,
    convertToRSS_feed (Sample.host (Throw (HostError "")) (Throw (HostError "")))
      (Root.to_json (Sample.root 12)) None = Ok feed
    /\ nth_error (items feed) 0 = Some item
    /\ field item "title" = CVal (VStr "Episode 2")
    /\ field item "description" = CVal (VStr "")
    /\ field item "url" = CVal (VStr "https://example.com/episodes/2")
    /\ field item "date" = CDate (VStr "2024-01-01T00:00:00Z")
    /\ field (field item "enclosure") "url"
       = CVal (VStr "https://example.com/episodes/2")
    /\ field (field item "enclosure") "size" = CVal (VNum (Finite (inject_Z 1002)))
    /\ field (field item "enclosure") "type" = CVal (VStr "audio/mpeg")
    /\ field item "author" = CVal (VStr "An Author")
    /\ custom_element item "itunes:episodeType" = CVal (VStr "full").
Proof.
  apply (item_fields (Sample.host (Throw (HostError "")) (Throw (HostError "")))
           (Sample.root 12) None 0%nat (Sample.episode 2)).
  reflexivity.
Defined.

(** X16: for every conforming document, the feed options give the podcast's
    [url] as both feed URL and site URL and as the link of the image
    element, the podcast's image URL (the empty string when it has none) as
    [image_url], as the [itunes:image] href and as the url of the image
    element, the language "en-us", a ttl of 60 and the current time as
    [pubDate]; [itunes:type], [content:encoded] and the [itunes:category]
    text carry [show_type], [description_html] and [category], and
    [itunes:explicit] is "false". *)
Theorem feed_options_mapping (h : Host) (r : Root.t) (m : option jsmap) :
  exists feed,
    convertToRSS_feed h (Root.to_json r) m = Ok feed
    /\ field (options feed) "feed_url" = CVal (VStr (Podcast.url (Root.podcast r)))
    /\ field (options feed) "site_url" = CVal (VStr (Podcast.url (Root.podcast r)))
    /\ field (options feed) "image_url"
       = CVal (VStr (text_or_empty (Podcast.image_url (Root.podcast r))))
    /\ field (options feed) "language" = CVal (VStr "en-us")
    /\ field (options feed) "ttl" = CVal (VNum (Finite 60))
    /\ field (options feed) "pubDate" = CVal (VStr (now h))
    /\ custom_element (options feed) "itunes:author"
       = CVal (VStr (Podcast.author (Root.podcast r)))
    /\ custom_element (options feed) "itunes:summary"
       = CVal (VStr (Podcast.description (Root.podcast r)))
    /\ custom_element (options feed) "itunes:type"
       = CVal (VStr (Podcast.show_type (Root.podcast r)))
    /\ custom_element (options feed) "itunes:explicit" = CVal (VStr "false")
    /\ custom_element (options feed) "content:encoded"
       = CVal (VStr (Podcast.description_html (Root.podcast r)))
    /\ attr (custom_element (options feed) "itunes:category") "text"
       = CVal (VStr (Podcast.category (Root.podcast r)))
    /\ attr (custom_element (options feed) "itunes:image") "href"
       = CVal (VStr (text_or_empty (Podcast.image_url (Root.podcast r))))
    /\ custom_element (options feed) "image"
       = CArr [ CObj [("url", CVal (VStr (text_or_empty
                                            (Podcast.image_url (Root.podcast r)))))];
                CObj [("title", CVal (VStr (Podcast.title (Root.podcast r))))];
                CObj [("link", CVal (VStr (Podcast.url (Root.podcast r))))] ].
Proof.
  eexists. split; [apply convertToRSS_feed_conforming|].
  repeat split.
Qed.

(* ================================================================= *)
(** * Documents that do not conform *)

Lemma feed_options_total (h : Host) (podcast : value) :
  truthy podcast = true -> exists opts, feed_options h podcast = Ok opts.
Proof.
  intros T. unfold feed_options.
  rewrite !(get_truthy podcast _ T). cbn [bind]. eexists. reflexivity.
Qed.

Lemma failed_conversion_is_500 (h : Host) (req : Request) (doc : value) :
  (forall m, exists e, convertToRSS h doc m = Throw e) ->
  primary_document h req doc ->
  status (snd (handler h req)) = 500%nat.
Proof.
  intros Hthrow Hreq. rewrite (handler_primary_document h req doc Hreq).
  destruct (decode_latest h _) as [latest|e]; [|reflexivity].
  destruct (Hthrow (snd (latest_episodes_map h latest))) as [e ->].
  reflexivity.
Qed.

(** X17: when the document has a truthy [podcast] whose [episodes] member is
    not an array (missing, [null], a string, an object, ...), [convertToRSS]
    throws an engine [TypeError], and a request whose primary fetch
    delivered the document is answered with status 500. *)
Theorem episodes_not_an_array (h : Host) (doc : value) (m : option jsmap) :
  truthy doc = true ->
  truthy (member doc "podcast") = true ->
  (forall l, member (member doc "podcast") "episodes" <> VArr l) ->
  (exists why, convertToRSS h doc m = Throw (EngineTypeError why))
  /\ forall req, primary_document h req doc ->
                 status (snd (handler h req)) = 500%nat.
Proof.
  intros T Tp Hnot.
  assert (Hthrow : forall m', exists why,
             convertToRSS h doc m' = Throw (EngineTypeError why)).
  { intros m'. unfold convertToRSS, convertToRSS_feed.
    rewrite T, (get_truthy doc _ T). cbn [negb bind]. rewrite Tp. cbn [negb].
    destruct (feed_options_total h _ Tp) as [opts ->]. cbn [bind].
    unfold selected_episodes. rewrite (get_truthy _ _ Tp). cbn [bind].
    destruct (member (member doc "podcast") "episodes") as [| |b|n|s|l|ms] eqn:E;
      try (eexists; reflexivity).
    destruct (Hnot l). reflexivity. }
  split; [apply Hthrow|].
  intros req Hreq. apply (failed_conversion_is_500 h req doc); [|exact Hreq].
  intros m'. destruct (Hthrow m') as [why Hwhy]. eauto.
Qed.

Lemma episodes_not_an_array_witness :
  (exists why,
     convertToRSS (Sample.host (Throw (HostError "")) (Throw (HostError "")))
       (VObj [("podcast", VObj [("title", VStr "No episodes")])]) None
     = Throw (EngineTypeError why))
  /\ forall req,
       primary_document (Sample.host (Throw (HostError "")) (Throw (HostError "")))
         req (VObj [("podcast", VObj [("title", VStr "No episodes")])]) ->
       status (snd (handler (Sample.host (Throw (HostError "")) (Throw (HostError "")))
                            req)) = 500%nat.
Proof.
  apply (episodes_not_an_array
           (Sample.host (Throw (HostError "")) (Throw (HostError "")))
           (VObj [("podcast", VObj [("title", VStr "No episodes")])]) None).
  - reflexivity.
  - reflexivity.
  - intros l. vm_compute. discriminate.
Defined.

Lemma forEach_episode_null (h : Host) (podcast : value) (m : option jsmap)
    (selected : list value) :
  In VNull selected ->
  forall feed, exists e, forEach_episode h podcast m feed selected = Throw e.
Proof.
  induction selected as [|x rest IH]; intros Hin feed; [destruct Hin|].
  cbn [forEach_episode].
  destruct Hin as [->|Hin]; [eexists; reflexivity|].
  destruct (episode_item h podcast m x) as [item|e]; cbn [bind];
    [apply IH; exact Hin|eexists; reflexivity].
Qed.

(** X18: a [null] among the selected elements of the [episodes] array makes
    [convertToRSS] throw, however well-formed the other episodes are, and
    the request is answered with status 500. *)
Theorem null_selected_episode (h : Host) (doc : value) (m : option jsmap)
    (l : list value) :
  truthy doc = true ->
  truthy (member doc "podcast") = true ->
  member (member doc "podcast") "episodes" = VArr l ->
  In VNull (selection l) ->
  (exists e, convertToRSS h doc m = Throw e)
  /\ forall req, primary_document h req doc ->
                 status (snd (handler h req)) = 500%nat.
Proof.
  intros T Tp Hl Hnull.
  assert (Hthrow : forall m', exists e, convertToRSS h doc m' = Throw e).
  { intros m'. unfold convertToRSS, convertToRSS_feed.
    rewrite T, (get_truthy doc _ T). cbn [negb bind]. rewrite Tp. cbn [negb].
    destruct (feed_options_total h _ Tp) as [opts ->]. cbn [bind].
    unfold selected_episodes. rewrite (get_truthy _ _ Tp), Hl. cbn [bind].
    fold (selection l).
    destruct (forEach_episode_null h (member doc "podcast") m' _ Hnull (new_RSS opts))
      as [e ->].
    eexists. reflexivity. }
  split; [apply Hthrow|].
  intros req. now apply failed_conversion_is_500.
Qed.

Lemma null_selected_episode_witness :
  (exists e,
     convertToRSS (Sample.host (Throw (HostError "")) (Throw (HostError "")))
       (VObj [("podcast",
               VObj [("episodes",
                      VArr (map Episode.to_json (map Sample.episode (seq 0 3))
                            ++ [VNull; VNull; VNull]))])])
       None = Throw e)
  /\ forall req,
       primary_document (Sample.host (Throw (HostError "")) (Throw (HostError "")))
         req
         (VObj [("podcast",
                 VObj [("episodes",
                        VArr (map Episode.to_json (map Sample.episode (seq 0 3))
                              ++ [VNull; VNull; VNull]))])]) ->
       status (snd (handler (Sample.host (Throw (HostError "")) (Throw (HostError "")))
                            req)) = 500%nat.
Proof.
  apply (null_selected_episode
           (Sample.host (Throw (HostError "")) (Throw (HostError "")))
           (VObj [("podcast",
                   VObj [("episodes",
                          VArr (map Episode.to_json (map Sample.episode (seq 0 3))
                                ++ [VNull; VNull; VNull]))])])
           None
           (map Episode.to_json (map Sample.episode (seq 0 3)) ++ [VNull; VNull; VNull])).
  - reflexivity.
  - reflexivity.
  - reflexivity.
  - vm_compute. right. left. reflexivity.
Defined.

Section Agreement.
Variables (h : Host) (podcast podcast' : value) (m : option jsmap).
Hypothesis T : truthy podcast = true.
Hypothesis T' : truthy podcast' = true.
Hypothesis agree :
  forall name, name <> "episodes" -> member podcast name = member podcast' name.

Lemma feed_options_agree : feed_options h podcast = feed_options h podcast'.
Proof.
  unfold feed_options.
  rewrite !(get_truthy podcast _ T), !(get_truthy podcast' _ T').
  rewrite (agree "title"), (agree "description"), (agree "url"),
    (agree "image_url"), (agree "author"), (agree "show_type"),
    (agree "description_html"), (agree "category") by discriminate.
  reflexivity.
Qed.

Lemma episode_item_agree (episode : value) :
  episode_item h podcast m episode = episode_item h podcast' m episode.
Proof.
  unfold episode_item, episode_image.
  rewrite !(get_truthy podcast _ T), !(get_truthy podcast' _ T').
  rewrite (agree "image_url"), (agree "author") by discriminate.
  reflexivity.
Qed.

Lemma forEach_episode_agree (selected : list value) :
  forall feed,
    forEach_episode h podcast m feed selected
    = forEach_episode h podcast' m feed selected.
Proof.
  induction selected as [|x rest IH]; intros feed; [reflexivity|].
  cbn [forEach_episode]. rewrite episode_item_agree.
  destruct (episode_item h podcast' m x) as [item|e]; cbn [bind];
    [apply IH|reflexivity].
Qed.
End Agreement.

(** X19: the array elements outside the selected range are not read at all:
    two documents whose podcasts agree on every member but [episodes], and
    whose [episodes] arrays have the same selected elements, give the same
    result, whatever the unselected elements are (well-formed episodes or
    not). *)
Theorem unselected_episodes_are_not_read (h : Host) (doc doc' : value)
    (m : option jsmap) (l l' : list value) :
  truthy doc = true ->
  truthy doc' = true ->
  truthy (member doc "podcast") = true ->
  truthy (member doc' "podcast") = true ->
  (forall name, name <> "episodes" ->
                member (member doc "podcast") name
                = member (member doc' "podcast") name) ->
  member (member doc "podcast") "episodes" = VArr l ->
  member (member doc' "podcast") "episodes" = VArr l' ->
  selection l = selection l' ->
  convertToRSS h doc m = convertToRSS h doc' m.
Proof.
  intros T T' Tp Tp' Hagree Hl Hl' Hsel.
  unfold convertToRSS, convertToRSS_feed.
  rewrite T, T', (get_truthy doc _ T), (get_truthy doc' _ T'). cbn [negb bind].
  rewrite Tp, Tp'. cbn [negb].
  rewrite (feed_options_agree h _ _ Tp Tp' Hagree).
  destruct (feed_options h (member doc' "podcast")) as [opts|e]; [|reflexivity].
  cbn [bind]. unfold selected_episodes.
  rewrite (get_truthy _ _ Tp), (get_truthy _ _ Tp'), Hl, Hl'. cbn [bind].
  fold (selection l). fold (selection l'). rewrite Hsel.
  now rewrite (forEach_episode_agree h _ _ m Tp Tp' Hagree).
Qed.

Lemma unselected_episodes_are_not_read_witness :
  convertToRSS (Sample.host (Throw (HostError "")) (Throw (HostError "")))
    (VObj [("podcast",
            VObj [("title", VStr "T");
                  ("episodes",
                   VArr (VNull :: VStr "junk"
                         :: map Episode.to_json (map Sample.episode (seq 0 10))))])])
    None
  = convertToRSS (Sample.host (Throw (HostError "")) (Throw (HostError "")))
      (VObj [("podcast",
              VObj [("title", VStr "T");
                    ("episodes",
                     VArr (map Episode.to_json (map Sample.episode (seq 0 10))))])])
      None.
Proof.
  apply (unselected_episodes_are_not_read
           (Sample.host (Throw (HostError "")) (Throw (HostError "")))
           (VObj [("podcast",
                   VObj [("title", VStr "T");
                         ("episodes",
                          VArr (VNull :: VStr "junk"
                                :: map Episode.to_json
                                     (map Sample.episode (seq 0 10))))])])
           (VObj [("podcast",
                   VObj [("title", VStr "T");
                         ("episodes",
                          VArr (map Episode.to_json
                                  (map Sample.episode (seq 0 10))))])])
           None
           (VNull :: VStr "junk"
            :: map Episode.to_json (map Sample.episode (seq 0 10)))
           (map Episode.to_json (map Sample.episode (seq 0 10)))).
  - reflexivity.
  - reflexivity.
  - reflexivity.
  - reflexivity.
  - intros name Hname. cbn [member lookup].
    change (String.eqb "podcast" "podcast") with true. cbn [member lookup].
    destruct (String.eqb name "title"); [reflexivity|].
    apply String.eqb_neq in Hname. rewrite Hname. reflexivity.
  - reflexivity.
  - reflexivity.
  - reflexivity.
Defined.









(** X21: the primary document is checked only after the secondary fetch:
    for a document that is absent or lacks the podcast, a request that names
    a secondary URL still fetches it, so the console holds the call of the
    secondary fetch followed by the [console.error] of the failed
    conversion. *)
Theorem secondary_fetch_precedes_validation (h : Host) (req : Request)
    (doc : value) (latest : string) :
  primary_document h req doc ->
  absent doc \/ lacks_podcast doc ->
  secondary_url h req latest ->
  exists c,
    not_console_error c
    /\ fst (fetch_latest h latest) = [c]
    /\ handler h req
       = ([c; console_error "Conversion error:"
                (NewError "Invalid podcast JSON structure")],
          new_Response
            "Failed to convert podcast JSON: Invalid podcast JSON structure"
            (Some 500%nat) []).
Proof.
  intros Hreq Hdoc [Hdec Hne].
  destruct (fetch_latest_console h latest) as (c & Hc & Hn).
  exists c. split; [exact Hn|]. split; [exact Hc|].
  rewrite (handler_primary_document h req doc Hreq), Hdec.
  unfold latest_episodes_map. rewrite Hne, Hc.
  unfold convertToRSS. rewrite (convertToRSS_feed_without_podcast h doc _ Hdoc).
  reflexivity.
Qed.

Lemma secondary_fetch_precedes_validation_witness :
  exists c,
    not_console_error c
    /\ fst (fetch_latest
              (Sample.host (Sample.responds VNull)
                 (Sample.responds (LatestPodcastsRoot.to_json
                    {| LatestPodcastsRoot.podcast :=
                         {| LatestPodcastData.episodes := [] |} |})))
              "https://example.com/latest.json") = [c]
    /\ handler
         (Sample.host (Sample.responds VNull)
            (Sample.responds (LatestPodcastsRoot.to_json
               {| LatestPodcastsRoot.podcast :=
                    {| LatestPodcastData.episodes := [] |} |})))
         (Sample.request "GET" "/convert"
            [("url", "https://example.com/podcast.json");
             ("latestPodcastsUrl", "https://example.com/latest.json")])
       = ([c; console_error "Conversion error:"
                (NewError "Invalid podcast JSON structure")],
          new_Response
            "Failed to convert podcast JSON: Invalid podcast JSON structure"
            (Some 500%nat) []).
Proof.
  apply (secondary_fetch_precedes_validation
    (Sample.host (Sample.responds VNull)
       (Sample.responds (LatestPodcastsRoot.to_json
          {| LatestPodcastsRoot.podcast :=
               {| LatestPodcastData.episodes := [] |} |})))
    (Sample.request "GET" "/convert"
       [("url", "https://example.com/podcast.json");
        ("latestPodcastsUrl", "https://example.com/latest.json")])
    VNull "https://example.com/latest.json").
  - split; [reflexivity|].
    exists "https://example.com/podcast.json", "https://example.com/podcast.json",
      {| ok := true; statusText := "OK"; json := Ok VNull |}.
    repeat split.
  - left. right. reflexivity.
  - split; reflexivity.
Defined.
